(** * Seg2Eye evaluation runner (src/util/tester.py), shallow embedding

    The class [Tester] is modelled with explicit state passing: every
    method becomes a function that returns the list of observable effects
    it performs (files saved, error-log rows written, batches run) together
    with either its Python return value or the exception it raises.
    The collaborators that live outside this file (the model, the image
    post-processor, the MSE calculator, the visualiser and the dataset's
    random-access interface) are gathered in the record [Collab] and left
    abstract. *)

From Stdlib Require Import List String Ascii ZArith QArith Lia Bool Arith.
Import ListNotations.
Open Scope string_scope.
Open Scope list_scope.
Open Scope nat_scope.

(** [length] and [concat] are those of lists; the string versions are
    written [String.length] and [String.concat]. *)
Abbreviation length := List.length (only parsing).
Abbreviation concat := List.concat (only parsing).

(* ------------------------------------------------------------------ *)
(** ** Python exceptions and results *)

Inductive PyExc :=
| AssertionError
| ValueError (msg : string)
| TypeError
| IndexError
| RuntimeError.

(** A Python call either returns a value ([inl]) or raises ([inr]). *)
Definition Result (A : Type) : Type := (A + PyExc)%type.

(* ------------------------------------------------------------------ *)
(** ** Python strings *)

(** [py_startswith p s] is [s.startswith(p)]. *)
Fixpoint py_startswith (p s : string) : bool :=
  match p, s with
  | EmptyString, _ => true
  | String a p', String b s' => Ascii.eqb a b && py_startswith p' s'
  | String _ _, EmptyString => false
  end.

(** [py_in sub s] is the Python test [sub in s] on strings. *)
Fixpoint py_in (sub s : string) : bool :=
  py_startswith sub s ||
  match s with
  | EmptyString => false
  | String _ s' => py_in sub s'
  end.

(** [re_sub_dot f] is [re.sub(r'\.', '', f)]: every literal dot removed. *)
Fixpoint re_sub_dot (f : string) : string :=
  match f with
  | EmptyString => EmptyString
  | String c f' => if Ascii.eqb c "." then re_sub_dot f' else String c (re_sub_dot f')
  end.

Definition ends_with_slash (a : string) : bool :=
  match String.get (String.length a - 1) a with
  | Some c => Ascii.eqb c "/"
  | None => false
  end.

(** [path_join a b] is [os.path.join(a, b)] on POSIX. *)
Definition path_join (a b : string) : string :=
  if py_startswith "/" b then b
  else if String.eqb a "" then b
  else if ends_with_slash a then (a ++ b)%string
  else (a ++ "/" ++ b)%string.

(** [os.linesep] on POSIX. *)
Definition linesep : string := String (ascii_of_nat 10) EmptyString.

(** [np.array(xs, dtype='S<w>')]: byte strings truncated to [w] bytes. *)
Definition np_bytes (w : nat) (s : string) : string := String.substring 0 w s.

(* ------------------------------------------------------------------ *)
(** ** Data model *)

(** An image tensor, flattened. Pixel values of the post-processed output
    are integers. *)
Definition Img : Type := list Z.

(** One dataset sample: the fields of a batch dictionary that this file
    reads, for one row. *)
Record Sample := mkSample {
  s_filename : string;
  s_user : string;
  s_label : Img;
  s_target_original : Img
}.

(** A batch is a list of samples; every field of the batch dictionary has
    the batch length as its leading dimension. *)
Definition Batch : Type := list Sample.

(** [data_i['label'].shape[0]] *)
Definition label_shape0 (b : Batch) : nat := length b.
(** [data_i['filename']] *)
Definition batch_filename (b : Batch) : list string := map s_filename b.
(** [data_i['user']] *)
Definition batch_user (b : Batch) : list string := map s_user b.

(** A NumPy array: its shape and its elements in C order. *)
Record NdArr (A : Type) := mkNdArr { nd_shape : list nat; nd_data : list A }.
Arguments mkNdArr {A} _ _.
Arguments nd_shape {A} _.
Arguments nd_data {A} _.

(** The collaborators this file calls but does not define. *)
Record Collab := mkCollab {
  (** [model.forward(data_i, mode="inference").detach().cpu()] *)
  model_forward : Batch -> list Img;
  (** [ImageProcessor.to_255resized_imagebatch(fake, as_tensor=True)] *)
  to_255resized_imagebatch : list Img -> list Img;
  (** [ImageProcessor.as_batch(data_i["target_original"], as_tensor=True)] *)
  as_batch : Batch -> list Img;
  (** [MSECalculator.calculate_mse_for_images(fake_resized, target_image)] *)
  calculate_mse_for_images : list Img -> list Img -> list Q;
  (** [visualize_sidebyside({**data_i, "fake": fake}, error_list=errors)]:
      the values of the returned dictionary, in order, as float arrays *)
  visualize_sidebyside : Batch -> list Img -> list Q -> list (NdArr Q);
  (** the float-to-uint8 conversion h5py applies when storing into the
      [visualisation] dataset *)
  h5_to_uint8 : Q -> Z;
  (** [dataset.get_particular(i_val)] *)
  get_particular : Z -> Batch;
  (** [dataset.get_random_indices(limit)] *)
  get_random_indices : Z -> list Z;
  (** [dataset.get_validation_indices()] *)
  get_validation_indices : list Z
}.

(** The fields of [opt] that the runner reads. [opt_results_dir] is
    [None] when ['results_dir' not in opt]. *)
Record Opt := mkOpt {
  opt_name : string;
  opt_checkpoints_dir : string;
  opt_results_dir : option string;
  opt_batchSize : nat
}.

(** A constructed [Tester]. *)
Record Tester := mkTester {
  t_dataset_key : string;
  t_batchSize : nat;
  t_dataset : list Sample;
  t_is_validation : bool;
  t_N : nat;
  t_results_dir : string
}.

(** [Tester.__init__(opt, dataset_key)]; [dataset] holds the samples of
    the split the dataloader is built for, and [self.N] is
    [dataloader.dataset.N], the number of samples. The results directory
    is joined from the caller's [opt.checkpoints_dir], as in the source;
    the copy rewritten against [os.getcwd()] is not read again. *)
Definition tester_init (opt : Opt) (dataset_key : string)
    (dataset : list Sample) : Tester :=
  let results_dir := match opt_results_dir opt with
                     | Some r => r
                     | None => "results/"
                     end in
  {| t_dataset_key := dataset_key;
     t_batchSize := opt_batchSize opt;
     t_dataset := dataset;
     t_is_validation :=
       existsb (String.eqb dataset_key) ["validation"; "train"];
     t_N := length dataset;
     t_results_dir :=
       path_join (path_join (path_join (opt_checkpoints_dir opt) (opt_name opt))
                            results_dir) dataset_key |}.

(** Modelled from the spec: the dataloader of [data.create_dataloader]
    (not in this source tree). With [serial_batches] set it iterates the
    split in its natural order, [batchSize] samples per batch, the last
    batch holding the remainder. *)
Fixpoint chunk (fuel B : nat) (l : list Sample) : list Batch :=
  match fuel with
  | O => []
  | S fuel' =>
      match l with
      | [] => []
      | _ :: _ => firstn B l :: chunk fuel' B (skipn B l)
      end
  end.

Definition dataloader (T : Tester) : list Batch :=
  chunk (length (t_dataset T)) (t_batchSize T) (t_dataset T).

(** The h5 error log of [_prepare_error_log]: four datasets of [self.N]
    rows each. A [visualisation] row is one [1 x 380 x 1000] uint8 image,
    flattened. *)
Record ErrorLog := mkErrorLog {
  el_path : string;
  el_error : list Q;
  el_user : list string;
  el_filename : list string;
  el_visualisation : list Img
}.


(** The effects the runner performs, in order. *)
Inductive Event :=
| EvLogOpen (path : string)            (** [h5py.File(path, "w")] *)
| EvBatch (i : nat)                    (** [run_batch] on the batch enumerated [i] *)
| EvLogWrite (i idx_from idx_to : nat) (** rows of batch [i] written into the log *)
| EvLogClose (log : ErrorLog)          (** [error_log.close()], with its contents *)
| EvSave (path : string) (arr : list Z) (** [np.save(path, arr)] *)
| EvWriteText (path : string) (content : string). (** a text file written *)

(** The number of elements of an array of the given shape. *)
Definition shape_size (sh : list nat) : nat := fold_right Nat.mul 1 sh.

Fixpoint shape_eqb (a b : list nat) : bool :=
  match a, b with
  | [], [] => true
  | x :: a', y :: b' => Nat.eqb x y && shape_eqb a' b'
  | _, _ => false
  end.

(** The message NumPy gives when the arrays of a list cannot be stacked. *)
Definition np_broadcast_msg : string := "could not broadcast input array".

(** [np.array(vs)] on a list of arrays, NumPy before 1.24 (the code's
    [np.float] requires it). Arrays of one shape stack into an array with
    one more leading axis; an empty list gives a float array of shape
    [(0,)]. Arrays of different shapes whose first axes all agree raise
    [ValueError]; otherwise NumPy builds a one-dimensional object array
    (with a warning), which is [None] here. *)
Definition np_stack {A} (vs : list (NdArr A)) : Result (option (NdArr A)) :=
  match vs with
  | [] => inl (Some (mkNdArr [0] []))
  | v :: vs' =>
      if forallb (fun w => shape_eqb (nd_shape w) (nd_shape v)) vs'
      then inl (Some (mkNdArr (length vs :: nd_shape v) (concat (map nd_data vs))))
      else
        match nd_shape v with
        | d :: _ =>
            if forallb (fun w => match nd_shape w with
                                 | d' :: _ => Nat.eqb d' d
                                 | [] => false
                                 end) vs'
            then inr (ValueError np_broadcast_msg)
            else inl None
        | [] => inl None
        end
  end.

(** h5py's [SimpleSelection.expand_shape], on reversed shapes: the source
    axes are matched from the last one; each must be 1 or equal the
    selection's count; missing source axes count as 1. It returns the
    reversed expanded shape and the unmatched source axes. *)
Fixpoint h5_expand_rev (cnt_rev src_rev : list nat) : option (list nat * list nat) :=
  match cnt_rev with
  | [] => Some ([], src_rev)
  | c :: cnt' =>
      match src_rev with
      | [] =>
          match h5_expand_rev cnt' [] with
          | Some (e, r) => Some (1 :: e, r)
          | None => None
          end
      | t :: src' =>
          if Nat.eqb t 1 || Nat.eqb c t then
            match h5_expand_rev cnt' src' with
            | Some (e, r) => Some (t :: e, r)
            | None => None
            end
          else None
      end
  end.

(** [expand_shape(source_shape)] for a selection of shape [cnt]: a
    mismatch, or an unmatched source axis longer than 1, raises
    [TypeError("Can't broadcast ...")]. *)
Definition h5_expand_shape (src cnt : list nat) : Result (list nat) :=
  match h5_expand_rev (rev cnt) (rev src) with
  | None => inr TypeError
  | Some (e, r) => if existsb (fun n => Nat.ltb 1 n) r then inr TypeError else inl (rev e)
  end.

(** The elements the write stores into a selection of shape [cnt], in C
    order, from source data of (expanded) shape [esh]: an axis of length 1
    is repeated along the selection, as h5py's [broadcast] tiles it. *)
Fixpoint h5_broadcast {A} (esh cnt : list nat) (data : list A) : list A :=
  match esh, cnt with
  | e :: esh', c :: cnt' =>
      let sub := shape_size esh' in
      if Nat.eqb e 1 then concat (repeat (h5_broadcast esh' cnt' (firstn sub data)) c)
      else concat (map (fun j => h5_broadcast esh' cnt' (firstn sub (skipn (j * sub) data)))
                       (seq 0 c))
  | _, _ => data
  end.

(** [m] consecutive rows of [rsz] elements. *)
Definition rows_of {A} (rsz m : nat) (flat : list A) : list (list A) :=
  map (fun j => firstn rsz (skipn (j * rsz) flat)) (seq 0 m).

(** The selection [dset[lo:hi]] of a dataset of [n] rows, clipped to its
    bounds as Python slices are: its first row and its number of rows. *)
Definition sel_lo (lo n : nat) : nat := Nat.min lo n.
Definition sel_count (lo hi n : nat) : nat := Nat.max (Nat.min lo n) (Nat.min hi n) - Nat.min lo n.

(** [dset[lo:hi] = data] into a one-dimensional h5py dataset, [data] a
    one-dimensional array: an empty selection writes nothing (h5py returns
    when [nselect == 0]); a value of the selection's length fills it; a
    one-entry value is broadcast to every selected row; any other length
    raises [TypeError("Can't broadcast ...")]. *)
Definition h5_assign_1d {A} (lo hi : nat) (data dset : list A) : Result (list A) :=
  let lo' := sel_lo lo (length dset) in
  let m := sel_count lo hi (length dset) in
  if Nat.eqb m 0 then inl dset
  else if Nat.eqb (length data) m then inl (firstn lo' dset ++ data ++ skipn (lo' + m) dset)
  else match data with
       | [x] => inl (firstn lo' dset ++ repeat x m ++ skipn (lo' + m) dset)
       | _ => inr TypeError
       end.

(** The rows a write of [src] into a selection of [m] rows of shape
    [row_shape] stores, when h5py accepts the shapes; an object array
    ([None]) has no HDF5 type and raises [TypeError]. *)
Definition h5_rows (row_shape : list nat) (m : nat) (src : option (NdArr Z))
    : Result (list (list Z)) :=
  match src with
  | None => inr TypeError
  | Some a =>
      match h5_expand_shape (nd_shape a) (m :: row_shape) with
      | inr e => inr e
      | inl esh => inl (rows_of (shape_size row_shape) m (h5_broadcast esh (m :: row_shape) (nd_data a)))
      end
  end.

(** [dset[lo:hi] = src] into an h5py dataset whose rows have shape
    [row_shape]. *)
Definition h5_assign_rows (row_shape : list nat) (lo hi : nat) (src : option (NdArr Z))
    (dset : list (list Z)) : Result (list (list Z)) :=
  let lo' := sel_lo lo (length dset) in
  let m := sel_count lo hi (length dset) in
  if Nat.eqb (m * shape_size row_shape) 0 then inl dset
  else match h5_rows row_shape m src with
       | inr e => inr e
       | inl rows => inl (firstn lo' dset ++ rows ++ skipn (lo' + m) dset)
       end.

(** The shape of a row of the [visualisation] dataset. *)
Definition vis_row_shape : list nat := [1; 380; 1000].
Definition vis_row_size : nat := shape_size vis_row_shape.

(** The rows a one-dimensional value of entries [xs] gives a selection of
    [m] rows: the value itself, or its one entry repeated. *)
Definition bcast_1d {A} (m : nat) (xs : list A) : list A :=
  match xs with
  | [x] => repeat x m
  | _ => xs
  end.

(** [np.copy(x).astype(np.uint8)] on integer pixels. *)
Definition np_uint8 (v : Z) : Z := (v mod 256)%Z.

(** [torch.min(x) >= 0 and torch.max(x) <= 255] *)
Definition in_range_255 (o : Img) : bool :=
  forallb (fun v => (0 <=? v)%Z && (v <=? 255)%Z) o.

(** The [assert] of [run_test] on one output; [torch.min] of an empty
    tensor raises before the comparison. *)
Definition assert_range (o : Img) : option PyExc :=
  match o with
  | [] => Some RuntimeError
  | _ :: _ => if in_range_255 o then None else Some AssertionError
  end.

(** The manifest text: each path followed by [os.linesep]. *)
Definition manifest (filepaths : list string) : string :=
  fold_right (fun line acc => (line ++ linesep ++ acc)%string) "" filepaths.

(** The [error_list] array of [run_visual_validation]: a flat float
    array, or an object array of the per-batch arrays. *)
Inductive ErrArray :=
| ErrFlat (xs : list Q)
| ErrObject (rows : list (list Q)).

(** What [run_visual_validation] hands to [visualize_sidebyside]: the
    per-batch dictionaries (their other keys stay lists of per-batch
    values), the fields joined with [torch.cat(..., dim=0)], and the
    flattened error list. *)
Record VisualInput := mkVisualInput {
  vi_batches : list Batch;
  vi_label : list Img;
  vi_target_original : list Img;
  vi_fake : list Img;
  vi_errors : ErrArray
}.

(** [np.array(error_list).reshape(-1)] on the list of per-batch error
    arrays: arrays of one common length stack into a matrix that is
    flattened row by row; arrays of different lengths give a
    one-dimensional object array holding them, which [reshape(-1)] keeps. *)
Definition np_stack_flatten (rows : list (list Q)) : Result ErrArray :=
  match np_stack (map (fun r => mkNdArr [length r] r) rows) with
  | inr e => inr e
  | inl (Some a) => inl (ErrFlat (nd_data a))
  | inl None => inl (ErrObject rows)
  end.

Section Runner.
Variable C : Collab.

(** [Tester.get_iterator(dataloader, indices)] *)
Definition get_iterator (T : Tester) (indices : option (list Z)) : list Batch :=
  match indices with
  | None => dataloader T
  | Some idx => map (get_particular C) idx
  end.

(** Python's [xs[:k]]. *)
Definition py_slice_to {A} (xs : list A) (k : Z) : list A :=
  if (0 <=? k)%Z then firstn (Z.to_nat k) xs
  else firstn (length xs - Z.to_nat (- k)) xs.

(** [Tester._get_validation_indices(mode, limit)]; [None] is Python's
    [None] (no restriction). *)
Definition get_validation_indices_sel (mode : string) (limit : Z)
    : Result (option (list Z)) :=
  if py_in "rand" mode then inl (Some (get_random_indices C limit))
  else if py_in "fix" mode then inl (Some (py_slice_to (get_validation_indices C) limit))
  else if py_in "full" mode then inl None
  else inr (ValueError ("Invalid mode: " ++ mode)%string).

(** [Tester.forward(model, data_i)] *)
Definition forward (data_i : Batch) : list Img * list Img :=
  let fake := model_forward C data_i in
  (fake, to_255resized_imagebatch C fake).

(** [Tester.run_batch(data_i, model)] *)
Definition run_batch (data_i : Batch) : list Q * list Img * list Img * list Img :=
  let '(fake, fake_resized) := forward data_i in
  let target_image := as_batch C data_i in
  (calculate_mse_for_images C fake_resized target_image, fake, fake_resized, target_image).

(** [Tester._prepare_error_log()]: h5py fills new datasets with zeros. *)
Definition prepare_error_log (T : Tester) : ErrorLog :=
  {| el_path := path_join (t_results_dir T) ("error_log_" ++ t_dataset_key T ++ ".h5")%string;
     el_error := repeat 0%Q (t_N T);
     el_user := repeat "" (t_N T);
     el_filename := repeat "" (t_N T);
     el_visualisation := repeat (repeat 0%Z vis_row_size) (t_N T) |}.

(** [np.array([np.copy(v) for k, v in visuals.items()])], then
    [(vis + 1) * 128] and the conversion to uint8 on storing. *)
Definition vis_array (visuals : list (NdArr Q)) : Result (option (NdArr Z)) :=
  match np_stack visuals with
  | inr e => inr e
  | inl None => inl None
  | inl (Some v) =>
      inl (Some (mkNdArr (nd_shape v) (map (fun x => h5_to_uint8 C ((x + 1) * 128)%Q) (nd_data v))))
  end.

(** [Tester._write_error_log_batch(error_log, data_i, i, fake, errors)] *)
Definition write_error_log_batch (T : Tester) (error_log : ErrorLog) (data_i : Batch)
    (i : nat) (fake : list Img) (errors : list Q) : Result ErrorLog :=
  let visuals := visualize_sidebyside C data_i fake errors in
  let idx_from := i * t_batchSize T in
  let idx_to := i * t_batchSize T + t_batchSize T in
  match h5_assign_1d idx_from idx_to (map (np_bytes 4) (batch_user data_i))
          (el_user error_log) with
  | inr e => inr e
  | inl user =>
  match h5_assign_1d idx_from idx_to (map (np_bytes 13) (batch_filename data_i))
          (el_filename error_log) with
  | inr e => inr e
  | inl filename =>
  match h5_assign_1d idx_from idx_to errors (el_error error_log) with
  | inr e => inr e
  | inl error =>
  match vis_array visuals with
  | inr e => inr e
  | inl vis =>
  match h5_assign_rows vis_row_shape idx_from idx_to vis (el_visualisation error_log) with
  | inr e => inr e
  | inl visualisation =>
      inl {| el_path := el_path error_log; el_error := error; el_user := user;
             el_filename := filename; el_visualisation := visualisation |}
  end end end end end.

(** The [for i, data_i in enumerate(generator)] loop of [run_validation];
    [log] is [Some] exactly when [write_error_log] is set. *)
Fixpoint run_validation_loop (T : Tester) (generator : list Batch) (i counter : nat)
    (limit : Z) (log : option ErrorLog) (all_errors : list Q)
    : list Event * Result (list Q * option ErrorLog) :=
  match generator with
  | [] => ([], inl (all_errors, log))
  | data_i :: generator' =>
      let counter := counter + label_shape0 data_i in
      if (limit <? Z.of_nat counter)%Z then ([], inl (all_errors, log))
      else
        let '(errors, fake, _, _) := run_batch data_i in
        let all_errors := all_errors ++ errors in
        match log with
        | None =>
            let '(evs, r) :=
              run_validation_loop T generator' (S i) counter limit None all_errors in
            (EvBatch i :: evs, r)
        | Some error_log =>
            match write_error_log_batch T error_log data_i i fake errors with
            | inr e => ([EvBatch i], inr e)
            | inl error_log =>
                let '(evs, r) :=
                  run_validation_loop T generator' (S i) counter limit
                    (Some error_log) all_errors in
                (EvBatch i :: EvLogWrite i (i * t_batchSize T)
                   (i * t_batchSize T + t_batchSize T) :: evs, r)
            end
        end
  end.

(** [Tester.run_validation(model, generator, limit, write_error_log)] *)
Definition run_validation (T : Tester) (generator : list Batch) (limit : Z)
    (write_error_log : bool) : list Event * Result (list Q) :=
  if negb (t_is_validation T) then ([], inr AssertionError)
  else
    let log := if write_error_log then Some (prepare_error_log T) else None in
    let opened := match log with
                  | Some el => [EvLogOpen (el_path el)]
                  | None => []
                  end in
    let '(evs, r) := run_validation_loop T generator 0 0 limit log [] in
    match r with
    | inr e => (opened ++ evs, inr e)
    | inl (all_errors, final_log) =>
        (opened ++ evs ++ match final_log with
                          | Some el => [EvLogClose el]
                          | None => []
                          end, inl all_errors)
    end.

(** The first line of [Tester.run]: [limit if limit > 0 else N]. *)
Definition resolve_limit (T : Tester) (limit : Z) : Z :=
  if (0 <? limit)%Z then limit else Z.of_nat (t_N T).

(** [Tester.run(model, mode, epoch, n_steps, limit, write_error_log, log)]
    up to the error statistics: the result is the error list handed to
    [MSECalculator.calculate_error_statistics]; printing and logging of the
    statistics are left to the collaborators. *)
Definition run (T : Tester) (mode : string) (limit : Z) (write_error_log : bool)
    : list Event * Result (list Q) :=
  let limit := resolve_limit T limit in
  match get_validation_indices_sel mode limit with
  | inr e => ([], inr e)
  | inl indices =>
      let generator := get_iterator T indices in
      run_validation T generator limit write_error_log
  end.

(** The inner [for b in range(len(img_filename))] loop of [run_test]: the
    saves performed, the paths appended to [filepaths], and the exception
    raised, if any. *)
Fixpoint save_outputs (results_dir : string) (img_filename : list string)
    (fake_resized : list Img) : list Event * list string * option PyExc :=
  match img_filename with
  | [] => ([], [], None)
  | f :: img_filename' =>
      let result_path := path_join results_dir (f ++ ".npy")%string in
      match fake_resized with
      | [] => ([], [], Some IndexError)
      | o :: fake_resized' =>
          match assert_range o with
          | Some e => ([], [], Some e)
          | None =>
              let '(evs, ps, e) := save_outputs results_dir img_filename' fake_resized' in
              (EvSave result_path (map np_uint8 o) :: evs, result_path :: ps, e)
          end
      end
  end.

(** The [for i, data_i in enumerate(self.dataloader)] loop of [run_test]. *)
Fixpoint run_test_loop (T : Tester) (batches : list Batch) (i : nat) (limit : Z)
    : list Event * list string * option PyExc :=
  match batches with
  | [] => ([], [], None)
  | data_i :: batches' =>
      if (0 <? limit)%Z && (limit <=? Z.of_nat (i * t_batchSize T))%Z then ([], [], None)
      else
        let img_filename := map re_sub_dot (batch_filename data_i) in
        let '(_, fake_resized) := forward data_i in
        let '(evs, ps, e) := save_outputs (t_results_dir T) img_filename fake_resized in
        match e with
        | Some x => (evs, ps, Some x)
        | None =>
            let '(evs', ps', e') := run_test_loop T batches' (S i) limit in
            (evs ++ evs', ps ++ ps', e')
        end
  end.

(** [Tester.run_test(model, limit)] *)
Definition run_test (T : Tester) (limit : Z) : list Event * option PyExc :=
  let '(evs, filepaths, e) := run_test_loop T (dataloader T) 0 limit in
  match e with
  | Some x => (evs, Some x)
  | None =>
      (evs ++ [EvWriteText (path_join (t_results_dir T) "pred_npy_list.txt")
                 (manifest filepaths)], None)
  end.

(** [Tester.run_visual_validation(model, mode, epoch, n_steps, limit)] up
    to the call of [visualize_sidebyside]: the error array is flattened
    before [result_list[0]] is read, so an empty generator raises
    [IndexError] there. *)
Definition run_visual_validation (T : Tester) (mode : string) (limit : Z)
    : Result VisualInput :=
  match get_validation_indices_sel mode limit with
  | inr e => inr e
  | inl indices =>
      let generator := get_iterator T indices in
      let runs := map (fun data_i =>
                         let '(errors, fake, _, _) := run_batch data_i in
                         (data_i, fake, errors)) generator in
      match np_stack_flatten (map snd runs) with
      | inr e => inr e
      | inl error_list =>
          match runs with
          | [] => inr IndexError
          | _ :: _ =>
              inl {| vi_batches := generator;
                     vi_label := concat (map (fun r => map s_label (fst (fst r))) runs);
                     vi_target_original :=
                       concat (map (fun r => map s_target_original (fst (fst r))) runs);
                     vi_fake := concat (map (fun r => snd (fst r)) runs);
                     vi_errors := error_list |}
          end
      end
  end.

(** [Tester.run_partial_modes(model, epoch, n_steps, log, visualize_images,
    limit)]: one [run] in mode ['rand'] (with the default
    [write_error_log=False]), then, when asked, a visual validation of 4
    samples. The last component is [None] when no visual validation runs. *)
Definition run_partial_modes (T : Tester) (visualize_images : bool) (limit : Z)
    : list Event * Result (list Q) * option (Result VisualInput) :=
  let '(evs, r) := run T "rand" limit false in
  match r with
  | inr e => (evs, inr e, None)
  | inl all_errors =>
      (evs, inl all_errors,
       if visualize_images then Some (run_visual_validation T "rand" 4) else None)
  end.

End Runner.

(* ------------------------------------------------------------------ *)
(** ** Observations on runs *)

(** Total sample count of a list of batches. *)
Definition samples (bs : list Batch) : nat := list_sum (map (@List.length Sample) bs).

(** The enumeration indices of the batches [run_batch] was called on. *)
Definition batch_events (evs : list Event) : list nat :=
  flat_map (fun e => match e with EvBatch i => [i] | _ => [] end) evs.

(** The [errors] array [run_batch] returns for a batch. *)
Definition batch_errors (C : Collab) (b : Batch) : list Q :=
  let '(errors, _, _, _) := run_batch C b in errors.

(** The paths of the [.npy] files saved, in order. *)
Definition save_paths (evs : list Event) : list string :=
  flat_map (fun e => match e with EvSave p _ => [p] | _ => [] end) evs.

(** The saves of the given arrays under the given paths, in order. *)
Definition saves (paths : list string) (arrs : list (list Z)) : list Event :=
  map (fun pa => EvSave (fst pa) (snd pa)) (combine paths arrs).

(** The output path [run_test] uses for one sample. *)
Definition sample_path (T : Tester) (s : Sample) : string :=
  path_join (t_results_dir T) (re_sub_dot (s_filename s) ++ ".npy")%string.

(** The four datasets of an error log all have [self.N] rows. *)
Definition log_wf (T : Tester) (log : ErrorLog) : Prop :=
  length (el_error log) = t_N T /\ length (el_user log) = t_N T /\
  length (el_filename log) = t_N T /\ length (el_visualisation log) = t_N T.

(** [new] is [old] with rows [lo, hi) replaced by [data] (rows that exist). *)
Definition rows_written {A} (lo hi : nat) (old new data : list A) : Prop :=
  forall r,
    ((r < lo \/ hi <= r) -> nth_error new r = nth_error old r) /\
    (lo <= r < hi -> r < length old -> nth_error new r = nth_error data (r - lo)).

(** The output paths and saved arrays of one batch of [run_test]. *)
Definition batch_paths (T : Tester) (b : Batch) : list string := map (sample_path T) b.
Definition batch_arrays (C : Collab) (b : Batch) : list (list Z) :=
  map (map np_uint8) (snd (forward C b)).

(** What [run_test] needs from the model on one batch: one output per
    sample, each passing the range assertion. *)
Definition output_ok (C : Collab) (b : Batch) : Prop :=
  length (snd (forward C b)) = length b /\
  forall o, In o (snd (forward C b)) -> assert_range o = None.

(** A saved pixel lies in [0, 255]. *)
Definition pixel_ok (v : Z) : Prop := (0 <= v <= 255)%Z.

(** The exceptions writing a batch into the error log can raise: h5py's
    [TypeError] for shapes it cannot broadcast, NumPy's [ValueError] for
    visuals it cannot stack. *)
Definition log_exc (e : PyExc) : Prop := e = TypeError \/ e = ValueError np_broadcast_msg.

(** The exceptions the saving loop of [run_test] can raise. *)
Definition test_exc (e : PyExc) : Prop :=
  e = IndexError \/ e = AssertionError \/ e = RuntimeError.

(** The events of [k] batches run with the error log on, the first one
    enumerated [i]: each [run_batch] followed by the write of its rows. *)
Definition logged_batches (B i k : nat) : list Event :=
  flat_map (fun j => [EvBatch j; EvLogWrite j (j * B) (j * B + B)]) (seq i k).

(* ------------------------------------------------------------------ *)
(** ** Concrete inputs *)

Definition smp (f u : string) : Sample := mkSample f u [] [].

(** A small collaborator set: the model outputs one two-pixel image per
    sample, the MSE is one zero per output image, and the visualisation
    dictionary holds one array of shape [(1,)], which h5py broadcasts to
    every selected row of shape [(1, 380, 1000)]. *)
Definition C0 : Collab :=
  {| model_forward := fun b => map (fun _ => [1%Z; 2%Z]) b;
     to_255resized_imagebatch := fun x => x;
     as_batch := fun b => map s_target_original b;
     calculate_mse_for_images := fun fr _ => map (fun _ => 0%Q) fr;
     visualize_sidebyside := fun _ _ _ => [mkNdArr [1] [0%Q]];
     h5_to_uint8 := fun q => (Qnum q / Zpos (Qden q))%Z;
     get_particular := fun k => [smp "p.png" "u"];
     get_random_indices := fun k => map Z.of_nat (seq 0 (Z.to_nat k));
     get_validation_indices := [5%Z; 6%Z; 7%Z] |}.

(** A model whose outputs are one pixel too bright. *)
Definition C_bright : Collab :=
  {| model_forward := fun b => map (fun _ => [256%Z]) b;
     to_255resized_imagebatch := fun x => x;
     as_batch := fun b => map s_target_original b;
     calculate_mse_for_images := fun fr _ => map (fun _ => 0%Q) fr;
     visualize_sidebyside := fun _ _ _ => [mkNdArr [1] [0%Q]];
     h5_to_uint8 := fun q => (Qnum q / Zpos (Qden q))%Z;
     get_particular := fun k => [smp "p.png" "u"];
     get_random_indices := fun k => map Z.of_nat (seq 0 (Z.to_nat k));
     get_validation_indices := [5%Z; 6%Z; 7%Z] |}.

Definition ds0 : list Sample :=
  [smp "a.b.c" "u1"; smp "d.e" "u2"; smp "f" "u3"; smp "g.h" "u4"; smp "i" "u5";
   smp "j" "u6"].

Definition T0 : Tester :=
  tester_init {| opt_name := "run"; opt_checkpoints_dir := "ckpt";
                 opt_results_dir := None; opt_batchSize := 3 |} "validation" ds0.

(** An error log of six rows for [T0]. *)
Definition L6 : ErrorLog :=
  {| el_path := "ckpt/run/results/validation/error_log_validation.h5";
     el_error := repeat 0%Q 6; el_user := repeat "" 6; el_filename := repeat "" 6;
     el_visualisation := repeat [] 6 |}.

Example T0_results_dir : t_results_dir T0 = "ckpt/run/results/validation".
Proof. reflexivity. Qed.

Example sel_fixrandom : get_validation_indices_sel C0 "fixrandom" 2 = inl (Some [0%Z; 1%Z]).
Proof. reflexivity. Qed.

Example sel_fix : get_validation_indices_sel C0 "fix" 2 = inl (Some [5%Z; 6%Z]).
Proof. reflexivity. Qed.

Example sel_full : get_validation_indices_sel C0 "full" 2 = inl None.
Proof. reflexivity. Qed.

Example sel_bad : get_validation_indices_sel C0 "bogus" 2 = inr (ValueError "Invalid mode: bogus").
Proof. reflexivity. Qed.

Example dataloader_T0 : map (map s_filename) (dataloader T0) = [["a.b.c"; "d.e"; "f"]; ["g.h"; "i"; "j"]].
Proof. reflexivity. Qed.

Example run_validation_straddle :
  fst (run_validation C0 T0 [firstn 3 ds0; skipn 3 ds0] 5 false) = [EvBatch 0].
Proof. reflexivity. Qed.

Example run_test_T0 :
  run_test C0 T0 (-1) =
  ([EvSave "ckpt/run/results/validation/abc.npy" [1%Z; 2%Z];
    EvSave "ckpt/run/results/validation/de.npy" [1%Z; 2%Z];
    EvSave "ckpt/run/results/validation/f.npy" [1%Z; 2%Z];
    EvSave "ckpt/run/results/validation/gh.npy" [1%Z; 2%Z];
    EvSave "ckpt/run/results/validation/i.npy" [1%Z; 2%Z];
    EvSave "ckpt/run/results/validation/j.npy" [1%Z; 2%Z];
    EvWriteText "ckpt/run/results/validation/pred_npy_list.txt"
      (manifest ["ckpt/run/results/validation/abc.npy"; "ckpt/run/results/validation/de.npy";
                 "ckpt/run/results/validation/f.npy"; "ckpt/run/results/validation/gh.npy";
                 "ckpt/run/results/validation/i.npy"; "ckpt/run/results/validation/j.npy"])],
   None).
Proof. reflexivity. Qed.

(* ------------------------------------------------------------------ *)
(** ** String lemmas *)

Lemma py_startswith_refl : forall s, py_startswith s s = true.
Proof.
  induction s as [|c s IH]; simpl; [reflexivity|].
  rewrite Ascii.eqb_refl, IH. reflexivity.
Qed.

Lemma py_in_suffix : forall p s, py_in s (p ++ s)%string = true.
Proof.
  induction p as [|c p IH]; intros s; simpl.
  - destruct s; simpl; [reflexivity|].
    rewrite Ascii.eqb_refl, py_startswith_refl. reflexivity.
  - rewrite IH. apply orb_true_r.
Qed.

(* ------------------------------------------------------------------ *)
(** ** Dataloader lemmas *)

Lemma concat_chunk : forall fuel B l,
  0 < B -> length l <= fuel -> concat (chunk fuel B l) = l.
Proof.
  induction fuel as [|fuel IH]; intros B l HB Hl; simpl.
  - destruct l; simpl in *; [reflexivity | lia].
  - destruct l as [|x l']; [reflexivity|].
    simpl concat. rewrite IH; [apply firstn_skipn | exact HB |].
    rewrite length_skipn. cbn [List.length] in *. lia.
Qed.

(** C2: the mode string is tested for "rand", then "fix", then "full":
    a mode containing "rand" requests [limit] random indices whatever else
    it contains; one containing "fix" but not "rand" takes the first
    [limit] fixed validation indices; one containing "full" but neither
    of the others yields no restriction, so the iterator is the full
    dataloader, which traverses the whole dataset. *)
Theorem validation_indices_priority :
  forall (C : Collab) (T : Tester) (mode : string) (limit : Z),
    (py_in "rand" mode = true ->
       get_validation_indices_sel C mode limit = inl (Some (get_random_indices C limit))) /\
    (py_in "rand" mode = false -> py_in "fix" mode = true -> (0 <= limit)%Z ->
       get_validation_indices_sel C mode limit =
         inl (Some (firstn (Z.to_nat limit) (get_validation_indices C)))) /\
    (py_in "rand" mode = false -> py_in "fix" mode = false -> py_in "full" mode = true ->
       get_validation_indices_sel C mode limit = inl None /\
       get_iterator C T None = dataloader T /\
       (0 < t_batchSize T -> concat (get_iterator C T None) = t_dataset T)).
Proof.
  intros C T mode limit; unfold get_validation_indices_sel, py_slice_to.
  split; [|split].
  - intros Hr; rewrite Hr; reflexivity.
  - intros Hr Hf Hl; rewrite Hr, Hf. apply Z.leb_le in Hl. rewrite Hl. reflexivity.
  - intros Hr Hf Hu; rewrite Hr, Hf, Hu. split; [reflexivity|]. split; [reflexivity|].
    intros HB. simpl. apply concat_chunk; auto.
Qed.

Lemma validation_indices_priority_witness :
  get_validation_indices_sel C0 "fixrandom" 2 = inl (Some (get_random_indices C0 2)) /\
  get_validation_indices_sel C0 "fix" 2 = inl (Some (firstn 2 (get_validation_indices C0))) /\
  concat (get_iterator C0 T0 None) = t_dataset T0.
Proof.
  split; [|split].
  - apply (proj1 (validation_indices_priority C0 T0 "fixrandom" 2)). reflexivity.
  - apply (proj1 (proj2 (validation_indices_priority C0 T0 "fix" 2)));
      [reflexivity | reflexivity | lia].
  - apply (proj2 (proj2 ((proj2 (proj2 (validation_indices_priority C0 T0 "full" 2)))
             eq_refl eq_refl eq_refl))). cbn. lia.
Defined.

(** C6: a mode containing none of "rand", "fix", "full" raises
    [ValueError("Invalid mode: " + mode)], whose message contains the
    mode; [run] raises it before any batch is run or any file written. *)
Theorem invalid_mode_error :
  forall (C : Collab) (T : Tester) (mode : string) (limit : Z) (write_error_log : bool),
    py_in "rand" mode = false -> py_in "fix" mode = false -> py_in "full" mode = false ->
    get_validation_indices_sel C mode limit = inr (ValueError ("Invalid mode: " ++ mode)%string) /\
    py_in mode ("Invalid mode: " ++ mode)%string = true /\
    run C T mode limit write_error_log = ([], inr (ValueError ("Invalid mode: " ++ mode)%string)).
Proof.
  intros C T mode limit w Hr Hf Hu.
  unfold run, get_validation_indices_sel; rewrite Hr, Hf, Hu.
  split; [reflexivity|]. split; [apply py_in_suffix | reflexivity].
Qed.

Lemma invalid_mode_error_witness :
  get_validation_indices_sel C0 "bogus" 3 = inr (ValueError "Invalid mode: bogus") /\
  py_in "bogus" "Invalid mode: bogus" = true /\
  run C0 T0 "bogus" 3 true = ([], inr (ValueError "Invalid mode: bogus")).
Proof.
  apply (invalid_mode_error C0 T0 "bogus" 3 true); reflexivity.
Defined.

(** C8: [run] replaces a limit [<= 0] by the dataset size [N] and keeps a
    positive one, and hands that same resolved limit to the index
    selection and to [run_validation]. *)
Theorem run_resolves_limit :
  forall (C : Collab) (T : Tester) (mode : string) (limit : Z) (write_error_log : bool),
    run C T mode limit write_error_log =
    (let l := if (limit <=? 0)%Z then Z.of_nat (t_N T) else limit in
     match get_validation_indices_sel C mode l with
     | inr e => ([], inr e)
     | inl indices => run_validation C T (get_iterator C T indices) l write_error_log
     end).
Proof.
  intros C T mode limit w. unfold run, resolve_limit. cbv zeta.
  destruct (Z.ltb_spec 0 limit); destruct (Z.leb_spec limit 0); try lia; reflexivity.
Qed.

(* ------------------------------------------------------------------ *)
(** ** The batch loop of [run_validation] *)

Lemma samples_cons : forall b bs, samples (b :: bs) = length b + samples bs.
Proof. reflexivity. Qed.

(** One more batch run by the loop extends the processed prefix by one. *)
Ltac loop_step IH El b gen :=
  let k := fresh "k" in
  destruct (IH _ _ _ _ _ _ _ _ El) as (k & Hk & Hev & Hb & Hm & Ha);
  exists (S k); unfold label_shape0 in *;
  split; [cbn [List.length]; lia|];
  split; [unfold batch_events in *; simpl; rewrite Hev; reflexivity|];
  split; [|split];
  [ right; change (firstn (S k) (_ :: gen)) with (b :: firstn k gen);
    rewrite samples_cons; destruct Hb as [->|Hb]; [unfold samples; simpl; lia | lia]
  | destruct Hm as [->|Hm]; [left; reflexivity|]; right;
    change (firstn (S (S k)) (_ :: gen)) with (b :: firstn (S k) gen);
    rewrite samples_cons; lia
  | rewrite Ha; simpl; rewrite app_assoc; reflexivity ].

Lemma run_validation_loop_prefix :
  forall C T gen i counter limit log acc evs acc' log',
    run_validation_loop C T gen i counter limit log acc = (evs, inl (acc', log')) ->
    exists k, k <= length gen /\ batch_events evs = seq i k /\
      (k = 0 \/ (Z.of_nat (counter + samples (firstn k gen)) <= limit)%Z) /\
      (k = length gen \/ (limit < Z.of_nat (counter + samples (firstn (S k) gen)))%Z) /\
      acc' = acc ++ concat (map (batch_errors C) (firstn k gen)).
Proof.
  intros C T gen; induction gen as [|b gen IH];
    intros i counter limit log acc evs acc' log' H;
    cbn -[run_batch write_error_log_batch] in H.
  - inversion H; subst. exists 0. simpl. rewrite app_nil_r. repeat split; auto.
  - destruct (Z.ltb_spec limit (Z.of_nat (counter + label_shape0 b))) as [Hlt|Hge].
    + inversion H; subst. exists 0. simpl. rewrite app_nil_r.
      repeat split; auto; [lia|]. right. rewrite samples_cons. unfold label_shape0 in Hlt.
      simpl. lia.
    + destruct (run_batch C b) as [[[errors fake] fr] tg] eqn:Erb.
      assert (Hbe : batch_errors C b = errors) by (unfold batch_errors; rewrite Erb; reflexivity).
      destruct log as [el|].
      * destruct (write_error_log_batch C T el b i fake errors) as [el'|e]; [|discriminate].
        destruct (run_validation_loop C T gen (S i) (counter + label_shape0 b) limit
                    (Some el') (acc ++ errors)) as [evs' r] eqn:El.
        inversion H; subst. loop_step IH El b gen.
      * destruct (run_validation_loop C T gen (S i) (counter + label_shape0 b) limit
                    None (acc ++ errors)) as [evs' r] eqn:El.
        inversion H; subst. loop_step IH El b gen.
Qed.

Lemma batch_events_app : forall l1 l2,
  batch_events (l1 ++ l2) = batch_events l1 ++ batch_events l2.
Proof. intros; unfold batch_events; apply flat_map_app. Qed.

(** A successful [run_validation] runs exactly the longest prefix of the
    generator whose sample count stays within [limit]. *)
Lemma run_validation_prefix :
  forall C T gen limit write_error_log evs errs,
    run_validation C T gen limit write_error_log = (evs, inl errs) ->
    exists k, k <= length gen /\ batch_events evs = seq 0 k /\
      (Z.of_nat (samples (firstn k gen)) <= Z.max limit 0)%Z /\
      (k = length gen \/ (limit < Z.of_nat (samples (firstn (S k) gen)))%Z) /\
      errs = concat (map (batch_errors C) (firstn k gen)).
Proof.
  intros C T gen limit w evs errs H. unfold run_validation in H.
  destruct (t_is_validation T); [|discriminate]. cbn [negb] in H.
  set (log := if w then Some (prepare_error_log T) else None) in H.
  destruct (run_validation_loop C T gen 0 0 limit log []) as [evs' r] eqn:El.
  destruct r as [[all_errors final_log]|e]; [|discriminate].
  inversion H; subst.
  destruct (run_validation_loop_prefix _ _ _ _ _ _ _ _ _ _ _ El)
    as (k & Hk & Hev & Hb & Hm & Ha).
  exists k. split; [exact Hk|]. split.
  - rewrite !batch_events_app, Hev.
    destruct log; destruct final_log; simpl; rewrite ?app_nil_r; reflexivity.
  - split; [|split; [exact Hm | exact Ha]].
    destruct Hb as [->|Hb]; [unfold samples; simpl; lia | lia].
Qed.

Lemma h5_assign_1d_exc : forall {A} lo hi (data dset : list A) e,
  h5_assign_1d lo hi data dset = inr e -> e = TypeError.
Proof.
  intros A lo hi data dset e H. unfold h5_assign_1d in H.
  destruct (Nat.eqb _ 0); [discriminate|]. destruct (Nat.eqb _ _); [discriminate|].
  destruct data as [|x [|y data]]; congruence.
Qed.

Lemma h5_assign_rows_exc : forall rs lo hi src dset e,
  h5_assign_rows rs lo hi src dset = inr e -> e = TypeError.
Proof.
  intros rs lo hi src dset e H. unfold h5_assign_rows, h5_rows in H.
  destruct (Nat.eqb _ 0); [discriminate|].
  destruct src as [a|]; [|congruence].
  unfold h5_expand_shape in H.
  destruct (h5_expand_rev _ _) as [[es r]|]; [|congruence].
  destruct (existsb _ r); congruence.
Qed.

Lemma np_stack_exc : forall {A} (vs : list (NdArr A)) e,
  np_stack vs = inr e -> e = ValueError np_broadcast_msg.
Proof.
  intros A vs e H. unfold np_stack in H. destruct vs as [|v vs']; [discriminate|].
  destruct (forallb _ vs'); [discriminate|].
  destruct (nd_shape v) as [|d sh]; [discriminate|].
  destruct (forallb _ vs'); congruence.
Qed.

Lemma write_error_log_batch_exc :
  forall C T log data_i i fake errors e,
    write_error_log_batch C T log data_i i fake errors = inr e -> log_exc e.
Proof.
  intros C T log data_i i fake errors e H. unfold write_error_log_batch in H.
  destruct (h5_assign_1d _ _ _ (el_user log)) as [user|e1] eqn:E1;
    [|injection H as <-; left; eapply h5_assign_1d_exc; exact E1].
  destruct (h5_assign_1d _ _ _ (el_filename log)) as [fn|e2] eqn:E2;
    [|injection H as <-; left; eapply h5_assign_1d_exc; exact E2].
  destruct (h5_assign_1d _ _ _ (el_error log)) as [er|e3] eqn:E3;
    [|injection H as <-; left; eapply h5_assign_1d_exc; exact E3].
  destruct (vis_array C _) as [vis|e4] eqn:E4.
  - destruct (h5_assign_rows _ _ _ _ _) as [v|e5] eqn:E5; [discriminate|].
    injection H as <-. left. eapply h5_assign_rows_exc; exact E5.
  - injection H as <-. right. unfold vis_array in E4.
    destruct (np_stack _) as [[a|]|e'] eqn:Es; try discriminate.
    injection E4 as <-. eapply np_stack_exc; exact Es.
Qed.

Lemma run_validation_loop_exc :
  forall C T gen i counter limit log acc evs e,
    run_validation_loop C T gen i counter limit log acc = (evs, inr e) -> log_exc e.
Proof.
  intros C T gen; induction gen as [|b gen IH];
    intros i counter limit log acc evs e H;
    cbn -[run_batch write_error_log_batch] in H; [discriminate|].
  destruct (Z.ltb limit (Z.of_nat (counter + label_shape0 b))); [discriminate|].
  destruct (run_batch C b) as [[[errors fake] fr] tg].
  destruct log as [el|].
  - destruct (write_error_log_batch C T el b i fake errors) as [el'|e'] eqn:Ew.
    + destruct (run_validation_loop _ _ _ _ _ _ _ _) as [evs' r] eqn:El.
      inversion H; subst. eapply IH; exact El.
    + inversion H; subst. eapply write_error_log_batch_exc; exact Ew.
  - destruct (run_validation_loop _ _ _ _ _ _ _ _) as [evs' r] eqn:El.
    inversion H; subst. eapply IH; exact El.
Qed.

Lemma is_validation_key : forall key,
  existsb (String.eqb key) ["validation"; "train"] = true <->
  key = "validation" \/ key = "train".
Proof.
  intros key. simpl. rewrite orb_false_r, orb_true_iff, !String.eqb_eq. tauto.
Qed.

Lemma In_firstn_in : forall {A} k (l : list A) x, In x (firstn k l) -> In x l.
Proof.
  intros A k l x H. rewrite <- (firstn_skipn k l). apply in_or_app. left. exact H.
Qed.

Lemma length_batch_errors_concat : forall C bs,
  (forall b, In b bs -> length (batch_errors C b) = length b) ->
  length (concat (map (batch_errors C) bs)) = samples bs.
Proof.
  intros C bs; induction bs as [|b bs IH]; intros H; [reflexivity|].
  simpl. rewrite length_app, H by (left; reflexivity).
  rewrite samples_cons, IH; [reflexivity|]. intros b' Hb'. apply H. right. exact Hb'.
Qed.

(** C1 (as the code does it): [run_validation] adds each batch's sample
    count to the running counter before running the batch, and stops
    without running it as soon as the counter exceeds [limit]. The batches
    run are therefore the longest prefix of the generator whose sample
    count is at most [limit]: a batch that would carry the count past
    [limit] is not run, and at most [max limit 0] samples are processed. *)
Theorem run_validation_stops_before_limit :
  forall C T gen limit write_error_log evs errs,
    run_validation C T gen limit write_error_log = (evs, inl errs) ->
    exists k, k <= length gen /\ batch_events evs = seq 0 k /\
      (Z.of_nat (samples (firstn k gen)) <= Z.max limit 0)%Z /\
      (k = length gen \/ (limit < Z.of_nat (samples (firstn (S k) gen)))%Z) /\
      errs = concat (map (batch_errors C) (firstn k gen)).
Proof.
  intros C T gen limit w evs errs H. exact (run_validation_prefix C T gen limit w evs errs H).
Qed.

Lemma run_validation_stops_before_limit_witness :
  exists k, k <= 2 /\ batch_events [EvBatch 0] = seq 0 k /\
    (Z.of_nat (samples (firstn k [firstn 3 ds0; skipn 3 ds0])) <= Z.max 5 0)%Z /\
    (k = 2 \/ (5 < Z.of_nat (samples (firstn (S k) [firstn 3 ds0; skipn 3 ds0])))%Z) /\
    [0%Q; 0%Q; 0%Q] = concat (map (batch_errors C0) (firstn k [firstn 3 ds0; skipn 3 ds0])).
Proof.
  apply (run_validation_stops_before_limit C0 T0 [firstn 3 ds0; skipn 3 ds0] 5 false).
  vm_compute. reflexivity.
Defined.

(** C1 as stated fails: with batches of 3 and 3 samples and [limit = 5],
    the second batch straddles the limit (3 <= 5 < 6) and is not run. *)
Lemma run_validation_straddling_batch_not_run :
  let gen := [firstn 3 ds0; skipn 3 ds0] in
  (Z.of_nat (samples (firstn 1 gen)) <= 5 < Z.of_nat (samples (firstn 2 gen)))%Z /\
  batch_events (fst (run_validation C0 T0 gen 5 false)) = [0] /\
  ~ In 1 (batch_events (fst (run_validation C0 T0 gen 5 false))).
Proof.
  cbv zeta. split; [cbn; lia|]. split; [vm_compute; reflexivity|].
  vm_compute. intros [H|H]; [discriminate | exact H].
Qed.

(** C10: with non-empty batches and one error per sample, the loop stops
    before the first batch that would carry the sample count past [L]; so
    at most [max L 0] errors are accumulated, and for [L <= 0] (the
    default is [-1]) no batch is run and the error list is empty. *)
Theorem run_validation_error_count_bound :
  forall C T gen limit write_error_log evs errs,
    (forall b, In b gen -> b <> []) ->
    (forall b, In b gen -> length (batch_errors C b) = length b) ->
    run_validation C T gen limit write_error_log = (evs, inl errs) ->
    (exists k, batch_events evs = seq 0 k /\
       (k = length gen \/ (limit < Z.of_nat (samples (firstn (S k) gen)))%Z)) /\
    (Z.of_nat (length errs) <= Z.max limit 0)%Z /\
    ((limit <= 0)%Z -> errs = [] /\ batch_events evs = []).
Proof.
  intros C T gen limit w evs errs Hne Hlen H.
  destruct (run_validation_prefix C T gen limit w evs errs H)
    as (k & Hk & Hev & Hb & Hm & Ha).
  assert (Hl : length errs = samples (firstn k gen)).
  { rewrite Ha. apply length_batch_errors_concat.
    intros b Hb'. apply Hlen. eapply In_firstn_in; exact Hb'. }
  split; [exists k; split; assumption|]. split; [rewrite Hl; exact Hb|].
  intros HL. destruct k as [|k].
  - rewrite Ha, Hev. split; reflexivity.
  - exfalso. destruct gen as [|b gen]; [simpl in Hk; lia|].
    assert (Hb0 : b <> []) by (apply Hne; left; reflexivity).
    simpl firstn in Hb. rewrite samples_cons in Hb.
    destruct b; [contradiction|]. simpl length in Hb. lia.
Qed.

Lemma run_validation_error_count_bound_witness :
  (Z.of_nat (length [0%Q; 0%Q; 0%Q]) <= Z.max 5 0)%Z.
Proof.
  refine (proj1 (proj2 (run_validation_error_count_bound C0 T0
            [firstn 3 ds0; skipn 3 ds0] 5 false [EvBatch 0] [0%Q; 0%Q; 0%Q] _ _ _))).
  - intros b [<-|[<-|[]]]; discriminate.
  - intros b [<-|[<-|[]]]; reflexivity.
  - vm_compute. reflexivity.
Defined.

(** C7: [run_validation] raises its assertion exactly when the runner was
    built for a split other than "validation" and "train", and then before
    any batch is run or any file opened. *)
Theorem run_validation_requires_validation_split :
  forall C opt key dataset gen limit write_error_log,
    let T := tester_init opt key dataset in
    (snd (run_validation C T gen limit write_error_log) = inr AssertionError <->
       key <> "validation" /\ key <> "train") /\
    (key <> "validation" /\ key <> "train" ->
       fst (run_validation C T gen limit write_error_log) = []).
Proof.
  intros C opt key ds gen limit w T. unfold run_validation.
  subst T. cbn [t_is_validation tester_init].
  destruct (existsb (String.eqb key) ["validation"; "train"]) eqn:E.
  - apply is_validation_key in E. cbn [negb].
    destruct (run_validation_loop _ _ _ _ _ _ _ _) as [evs r] eqn:El.
    split; [|intros [H1 H2]; destruct E; contradiction].
    split; [|intros [H1 H2]; destruct E; contradiction].
    destruct r as [[a f]|e]; simpl; intros H; [discriminate|].
    inversion H; subst. apply run_validation_loop_exc in El.
    destruct El; discriminate.
  - assert (Hn : ~ (key = "validation" \/ key = "train")).
    { rewrite <- is_validation_key, E. discriminate. }
    split; [split; [intros _; split; intro; apply Hn; auto | reflexivity]|].
    intros _. reflexivity.
Qed.

Lemma run_validation_requires_validation_split_witness :
  snd (run_validation C0 (tester_init {| opt_name := "run"; opt_checkpoints_dir := "ckpt";
                 opt_results_dir := None; opt_batchSize := 3 |} "test" ds0)
         [ds0] 10 false) = inr AssertionError.
Proof.
  apply (proj2 (proj1 (run_validation_requires_validation_split C0
     {| opt_name := "run"; opt_checkpoints_dir := "ckpt";
        opt_results_dir := None; opt_batchSize := 3 |} "test" ds0 [ds0] 10 false))).
  split; discriminate.
Defined.

(* ------------------------------------------------------------------ *)
(** ** The loops of [run_test] *)

Lemma combine_app : forall {A B} (l1 l2 : list A) (m1 m2 : list B),
  length l1 = length m1 -> combine (l1 ++ l2) (m1 ++ m2) = combine l1 m1 ++ combine l2 m2.
Proof.
  intros A B l1; induction l1 as [|x l1 IH]; intros l2 m1 m2 H;
    destruct m1 as [|y m1]; simpl in *; try discriminate; [reflexivity|].
  rewrite IH by lia. reflexivity.
Qed.

Lemma saves_app : forall p1 p2 a1 a2,
  length p1 = length a1 -> saves (p1 ++ p2) (a1 ++ a2) = saves p1 a1 ++ saves p2 a2.
Proof. intros. unfold saves. rewrite combine_app by assumption. apply map_app. Qed.

Lemma save_outputs_ok : forall dir names outs,
  length outs = length names -> (forall o, In o outs -> assert_range o = None) ->
  save_outputs dir names outs =
    (saves (map (fun f => path_join dir (f ++ ".npy")%string) names) (map (map np_uint8) outs),
     map (fun f => path_join dir (f ++ ".npy")%string) names, None).
Proof.
  intros dir names; induction names as [|f names IH]; intros outs Hl Ho;
    destruct outs as [|o outs]; simpl in Hl; try discriminate; [reflexivity|].
  simpl. rewrite (Ho o) by (left; reflexivity).
  rewrite IH; [reflexivity | lia | intros o' Ho'; apply Ho; right; exact Ho'].
Qed.

Lemma run_test_loop_all : forall C T bs i limit,
  (forall j b, nth_error bs j = Some b ->
     ~ ((0 < limit)%Z /\ (limit <= Z.of_nat ((i + j) * t_batchSize T))%Z)) ->
  (forall b, In b bs -> output_ok C b) ->
  run_test_loop C T bs i limit =
    (saves (concat (map (batch_paths T) bs)) (concat (map (batch_arrays C) bs)),
     concat (map (batch_paths T) bs), None).
Proof.
  intros C T bs; induction bs as [|b bs IH]; intros i limit Hnb Hok; [reflexivity|].
  cbn -[forward save_outputs].
  destruct ((0 <? limit)%Z && (limit <=? Z.of_nat (i * t_batchSize T))%Z) eqn:E.
  - exfalso. apply andb_true_iff in E as [E1 E2].
    apply (Hnb 0 b eq_refl). rewrite Nat.add_0_r. split; [apply Z.ltb_lt | apply Z.leb_le]; assumption.
  - destruct (Hok b (or_introl eq_refl)) as [Hl Ho].
    destruct (forward C b) as [fake fr] eqn:Ef. simpl in Hl, Ho.
    rewrite save_outputs_ok; [| unfold batch_filename; rewrite !length_map; exact Hl | exact Ho].
    rewrite IH.
    + assert (Ha : batch_arrays C b = map (map np_uint8) fr)
        by (unfold batch_arrays; rewrite Ef; reflexivity).
      assert (Hp : map (fun f => path_join (t_results_dir T) (f ++ ".npy")%string)
                     (map re_sub_dot (batch_filename b)) = batch_paths T b).
      { unfold batch_filename, batch_paths, sample_path. rewrite !map_map. reflexivity. }
      rewrite Hp, <- Ha, <- saves_app; [reflexivity|].
      unfold batch_paths. rewrite Ha, !length_map. symmetry; exact Hl.
    + intros j b' Hj. replace (S i + j) with (i + S j) by lia. apply (Hnb (S j) b'). exact Hj.
    + intros b' Hb'. apply Hok. right. exact Hb'.
Qed.

Lemma chunk_start : forall fuel B l j b,
  0 < B -> nth_error (chunk fuel B l) j = Some b -> j * B < length l.
Proof.
  induction fuel as [|fuel IH]; intros B l j b HB H; [destruct j; discriminate|].
  destruct l as [|x l']; [destruct j; discriminate|].
  destruct j as [|j]; [simpl; lia|].
  simpl in H. apply IH in H; [|exact HB]. rewrite length_skipn in H.
  cbn [List.length] in *. lia.
Qed.

Lemma length_batch_arrays_concat : forall C bs,
  (forall b, In b bs -> output_ok C b) ->
  length (concat (map (batch_arrays C) bs)) = length (concat bs).
Proof.
  intros C bs; induction bs as [|b bs IH]; intros H; [reflexivity|].
  cbn [map List.concat]. rewrite !length_app, IH by (intros; apply H; right; assumption).
  destruct (H b (or_introl eq_refl)) as [Hl _].
  unfold batch_arrays. rewrite length_map. f_equal. exact Hl.
Qed.

(** C3: when the limit does not stop it early ([limit <= 0] or
    [limit >= N]) and the model gives one in-range output per sample,
    [run_test] saves one array per sample of the dataset, [N] in all, in
    dataset order, then writes the manifest listing exactly those [N]
    paths, one per line, in the same order, and raises nothing. *)
Theorem run_test_writes_every_sample :
  forall C opt key dataset limit,
    let T := tester_init opt key dataset in
    0 < opt_batchSize opt ->
    ((limit <= 0)%Z \/ (Z.of_nat (length dataset) <= limit)%Z) ->
    (forall b, In b (dataloader T) -> output_ok C b) ->
    exists arrs, length arrs = length dataset /\
      run_test C T limit =
        (saves (map (sample_path T) dataset) arrs ++
         [EvWriteText (path_join (t_results_dir T) "pred_npy_list.txt")
                      (manifest (map (sample_path T) dataset))], None).
Proof.
  intros C opt key ds limit T HB Hlim Hok.
  assert (Hcat : concat (dataloader T) = ds) by (apply concat_chunk; subst T; simpl; lia).
  assert (Hpaths : concat (map (batch_paths T) (dataloader T)) = map (sample_path T) ds).
  { change (map (batch_paths T) (dataloader T)) with (map (map (sample_path T)) (dataloader T)).
    rewrite <- concat_map, Hcat. reflexivity. }
  exists (concat (map (batch_arrays C) (dataloader T))). split.
  - rewrite length_batch_arrays_concat, Hcat; [reflexivity | exact Hok].
  - unfold run_test. rewrite run_test_loop_all; [rewrite Hpaths; reflexivity | | exact Hok].
    intros j b Hj [Hpos Hle].
    apply chunk_start in Hj; [|subst T; simpl; lia].
    subst T. simpl t_batchSize in *. simpl t_dataset in Hj.
    destruct Hlim as [Hlim|Hlim]; lia.
Qed.

Lemma run_test_writes_every_sample_witness :
  exists arrs, length arrs = length ds0 /\
    run_test C0 T0 (-1) =
      (saves (map (sample_path T0) ds0) arrs ++
       [EvWriteText (path_join (t_results_dir T0) "pred_npy_list.txt")
                    (manifest (map (sample_path T0) ds0))], None).
Proof.
  apply (run_test_writes_every_sample C0
           {| opt_name := "run"; opt_checkpoints_dir := "ckpt";
              opt_results_dir := None; opt_batchSize := 3 |} "validation" ds0 (-1)).
  - cbn. lia.
  - left. lia.
  - intros b Hb. vm_compute in Hb. destruct Hb as [<-|[<-|[]]];
      (split; [reflexivity|]); intros o Ho; vm_compute in Ho;
      repeat (destruct Ho as [<-|Ho]; [reflexivity|]); contradiction.
Defined.

Lemma save_paths_app : forall l1 l2, save_paths (l1 ++ l2) = save_paths l1 ++ save_paths l2.
Proof. intros; unfold save_paths; apply flat_map_app. Qed.

Lemma save_outputs_prefix : forall dir names outs evs ps e,
  save_outputs dir names outs = (evs, ps, e) ->
  save_paths evs = ps /\
  exists rest, map (fun f => path_join dir (f ++ ".npy")%string) names = ps ++ rest /\
               (e = None -> rest = []).
Proof.
  intros dir names; induction names as [|f names IH]; intros outs evs ps e H.
  - inversion H; subst. split; [reflexivity|]. exists []. split; reflexivity.
  - simpl in H. destruct outs as [|o outs].
    + inversion H; subst. split; [reflexivity|].
      eexists; split; [reflexivity | discriminate].
    + destruct (assert_range o) as [x|].
      * inversion H; subst. split; [reflexivity|].
        eexists; split; [reflexivity | discriminate].
      * destruct (save_outputs dir names outs) as [[evs' ps'] e'] eqn:Es.
        inversion H; subst. destruct (IH _ _ _ _ Es) as (Hp & rest & Hr & He).
        split; [simpl; f_equal; exact Hp|].
        exists rest. split; [simpl; f_equal; exact Hr | exact He].
Qed.

Lemma run_test_loop_prefix : forall C T bs i limit evs ps e,
  run_test_loop C T bs i limit = (evs, ps, e) ->
  save_paths evs = ps /\ exists rest, map (sample_path T) (concat bs) = ps ++ rest.
Proof.
  intros C T bs; induction bs as [|b bs IH]; intros i limit evs ps e H.
  - inversion H; subst. split; [reflexivity|]. exists []. reflexivity.
  - cbn -[forward save_outputs] in H.
    destruct ((0 <? limit)%Z && (limit <=? Z.of_nat (i * t_batchSize T))%Z).
    + inversion H; subst. split; [reflexivity|]. eexists; reflexivity.
    + destruct (forward C b) as [fake fr].
      destruct (save_outputs (t_results_dir T) (map re_sub_dot (batch_filename b)) fr)
        as [[evs1 ps1] e1] eqn:Es.
      destruct (save_outputs_prefix _ _ _ _ _ _ Es) as (Hp1 & rest1 & Hr1 & He1).
      assert (Hb : map (fun f => path_join (t_results_dir T) (f ++ ".npy")%string)
                     (map re_sub_dot (batch_filename b)) = map (sample_path T) b).
      { unfold batch_filename, sample_path. rewrite !map_map. reflexivity. }
      rewrite Hb in Hr1.
      destruct e1 as [x|].
      * inversion H; subst. split; [reflexivity|].
        exists (rest1 ++ map (sample_path T) (concat bs)).
        simpl. rewrite map_app, Hr1, app_assoc. reflexivity.
      * destruct (run_test_loop C T bs (S i) limit) as [[evs2 ps2] e2] eqn:El.
        inversion H; subst. destruct (IH _ _ _ _ _ El) as (Hp2 & rest2 & Hr2).
        rewrite He1 in Hr1 by reflexivity. rewrite app_nil_r in Hr1.
        split; [rewrite save_paths_app, Hp2; reflexivity|].
        exists rest2. simpl. rewrite map_app, Hr1, Hr2, app_assoc. reflexivity.
Qed.

Lemma chunk_prefix : forall fuel B l, exists rest, l = concat (chunk fuel B l) ++ rest.
Proof.
  induction fuel as [|fuel IH]; intros B l; [exists l; reflexivity|].
  destruct l as [|x l']; [exists []; reflexivity|].
  destruct (IH B (skipn B (x :: l'))) as [rest Hr].
  exists rest. simpl concat. rewrite <- app_assoc, <- Hr. symmetry. apply firstn_skipn.
Qed.

Lemma re_sub_dot_filter : forall f,
  list_ascii_of_string (re_sub_dot f) =
  filter (fun c => negb (Ascii.eqb c ".")) (list_ascii_of_string f).
Proof.
  induction f as [|c f IH]; [reflexivity|].
  simpl. destruct (Ascii.eqb c "."); simpl; rewrite IH; reflexivity.
Qed.

Example re_sub_dot_two_dots : re_sub_dot "0001.2345.npy" = "00012345npy".
Proof. reflexivity. Qed.

Example sample_path_two_dots :
  sample_path T0 (smp "0001.2345" "u") = "ckpt/run/results/validation/00012345.npy".
Proof. reflexivity. Qed.

(** C9: the files [run_test] saves are, in order, those of the first
    samples of the dataset, each at [results_dir/<name>.npy] where [<name>]
    is the sample's filename with every '.' removed; [re.sub(r'\.', '', f)]
    removes all dots, keeping the other characters in order. *)
Theorem run_test_output_names :
  forall C T limit,
    (exists k, save_paths (fst (run_test C T limit)) =
               firstn k (map (sample_path T) (t_dataset T))) /\
    (forall f, list_ascii_of_string (re_sub_dot f) =
               filter (fun c => negb (Ascii.eqb c ".")) (list_ascii_of_string f) /\
               ~ In "."%char (list_ascii_of_string (re_sub_dot f))).
Proof.
  intros C T limit. split.
  - unfold run_test.
    destruct (run_test_loop C T (dataloader T) 0 limit) as [[evs ps] e] eqn:El.
    destruct (run_test_loop_prefix _ _ _ _ _ _ _ _ El) as (Hp & rest & Hr).
    destruct (chunk_prefix (length (t_dataset T)) (t_batchSize T) (t_dataset T)) as [rest' Hr'].
    exists (length ps).
    assert (Hfull : map (sample_path T) (t_dataset T) = ps ++ rest ++ map (sample_path T) rest').
    { rewrite Hr' at 1. rewrite map_app. unfold dataloader in Hr. rewrite Hr, app_assoc.
      reflexivity. }
    rewrite Hfull, firstn_app, Nat.sub_diag, firstn_all. simpl firstn. rewrite app_nil_r.
    destruct e; simpl; [exact Hp|]. rewrite save_paths_app, Hp. apply app_nil_r.
  - intros f. rewrite re_sub_dot_filter. split; [reflexivity|].
    intros Hin. apply filter_In in Hin as [_ Hd]. rewrite Ascii.eqb_refl in Hd. discriminate.
Qed.


Lemma assert_range_ok : forall o,
  assert_range o = None -> map np_uint8 o = o /\ Forall pixel_ok o.
Proof.
  intros o H. destruct o as [|v o]; [discriminate|].
  unfold assert_range in H. destruct (in_range_255 (v :: o)) eqn:E; [|discriminate].
  unfold in_range_255 in E. rewrite forallb_forall in E.
  assert (Hall : Forall pixel_ok (v :: o)).
  { apply Forall_forall. intros x Hx. specialize (E x Hx).
    apply andb_true_iff in E as [E1 E2]. unfold pixel_ok. lia. }
  split; [|exact Hall].
  clear E H. induction Hall as [|x l Hx _ IH]; [reflexivity|].
  simpl. rewrite IH. unfold np_uint8. rewrite Z.mod_small by (unfold pixel_ok in Hx; lia).
  reflexivity.
Qed.

Lemma save_outputs_range : forall dir names outs evs ps e,
  save_outputs dir names outs = (evs, ps, e) ->
  forall p a, In (EvSave p a) evs -> Forall pixel_ok a.
Proof.
  intros dir names; induction names as [|f names IH]; intros outs evs ps e H p a Hin.
  - inversion H; subst. destruct Hin.
  - simpl in H. destruct outs as [|o outs]; [inversion H; subst; destruct Hin|].
    destruct (assert_range o) as [x|] eqn:Ea; [inversion H; subst; destruct Hin|].
    destruct (save_outputs dir names outs) as [[evs' ps'] e'] eqn:Es.
    inversion H; subst. destruct Hin as [Heq|Hin].
    + inversion Heq; subst. destruct (assert_range_ok o Ea) as [-> Hok]. exact Hok.
    + eapply IH; [exact Es | exact Hin].
Qed.

Lemma run_test_loop_range : forall C T bs i limit evs ps e,
  run_test_loop C T bs i limit = (evs, ps, e) ->
  forall p a, In (EvSave p a) evs -> Forall pixel_ok a.
Proof.
  intros C T bs; induction bs as [|b bs IH]; intros i limit evs ps e H p a Hin.
  - inversion H; subst. destruct Hin.
  - cbn -[forward save_outputs] in H.
    destruct ((0 <? limit)%Z && (limit <=? Z.of_nat (i * t_batchSize T))%Z).
    + inversion H; subst. destruct Hin.
    + destruct (forward C b) as [fake fr].
      destruct (save_outputs (t_results_dir T) (map re_sub_dot (batch_filename b)) fr)
        as [[evs1 ps1] e1] eqn:Es.
      destruct e1 as [x|].
      * inversion H; subst. eapply save_outputs_range; eauto.
      * destruct (run_test_loop C T bs (S i) limit) as [[evs2 ps2] e2] eqn:El.
        inversion H; subst. apply in_app_or in Hin as [Hin|Hin].
        -- eapply save_outputs_range; eauto.
        -- eapply IH; eauto.
Qed.

Lemma save_outputs_first_bad : forall dir b names outs o,
  b < length names ->
  (forall j, j < b -> exists o', nth_error outs j = Some o' /\ assert_range o' = None) ->
  nth_error outs b = Some o -> in_range_255 o = false ->
  save_outputs dir names outs =
    (saves (firstn b (map (fun f => path_join dir (f ++ ".npy")%string) names))
           (firstn b (map (map np_uint8) outs)),
     firstn b (map (fun f => path_join dir (f ++ ".npy")%string) names),
     Some AssertionError).
Proof.
  intros dir b; induction b as [|b IH]; intros names outs o Hb Hpre Ho Hbad;
    (destruct names as [|f names]; [simpl in Hb; lia|]);
    (destruct outs as [|o0 outs]; [discriminate|]).
  - simpl in Ho. inversion Ho; subst. simpl.
    destruct o as [|v o]; [discriminate|]. cbn [assert_range]. rewrite Hbad. reflexivity.
  - destruct (Hpre 0 ltac:(lia)) as (o' & Ho' & Ha). simpl in Ho'. inversion Ho'; subst.
    simpl. rewrite Ha.
    rewrite (IH names outs o); [reflexivity | simpl in Hb; lia | | exact Ho | exact Hbad].
    intros j Hj. destruct (Hpre (S j) ltac:(lia)) as (o'' & Ho'' & Ha'').
    exists o''. split; assumption.
Qed.

(** C4: every array [run_test] saves has all its elements in [0, 255];
    and in the loop over a batch's samples, the first output holding a
    value outside [0, 255] raises [AssertionError] after the files of the
    samples before it and before any file of its own is written. *)
Theorem run_test_outputs_in_range :
  (forall C T limit p a, In (EvSave p a) (fst (run_test C T limit)) -> Forall pixel_ok a) /\
  (forall dir b names outs o,
     b < length names ->
     (forall j, j < b -> exists o', nth_error outs j = Some o' /\ assert_range o' = None) ->
     nth_error outs b = Some o -> in_range_255 o = false ->
     save_outputs dir names outs =
       (saves (firstn b (map (fun f => path_join dir (f ++ ".npy")%string) names))
              (firstn b (map (map np_uint8) outs)),
        firstn b (map (fun f => path_join dir (f ++ ".npy")%string) names),
        Some AssertionError)).
Proof.
  split.
  - intros C T limit p a Hin. unfold run_test in Hin.
    destruct (run_test_loop C T (dataloader T) 0 limit) as [[evs ps] e] eqn:El.
    destruct e; simpl in Hin.
    + eapply run_test_loop_range; eauto.
    + apply in_app_or in Hin as [Hin|[Hin|[]]]; [eapply run_test_loop_range; eauto|].
      discriminate.
  - exact save_outputs_first_bad.
Qed.

Lemma run_test_outputs_in_range_witness :
  save_outputs "out" ["a"; "b"; "c"] [[1%Z]; [300%Z]; [2%Z]] =
    (saves (firstn 1 (map (fun f => path_join "out" (f ++ ".npy")%string) ["a"; "b"; "c"]))
           (firstn 1 (map (map np_uint8) [[1%Z]; [300%Z]; [2%Z]])),
     firstn 1 (map (fun f => path_join "out" (f ++ ".npy")%string) ["a"; "b"; "c"]),
     Some AssertionError).
Proof.
  apply (proj2 run_test_outputs_in_range "out" 1 ["a"; "b"; "c"] [[1%Z]; [300%Z]; [2%Z]] [300%Z]).
  - simpl. lia.
  - intros j Hj. destruct j as [|j]; [|lia]. exists [1%Z]. split; reflexivity.
  - reflexivity.
  - reflexivity.
Defined.

(* ------------------------------------------------------------------ *)
(** ** The error log *)

Lemma splice_rows : forall {A} lo hi (dset vals : list A),
  lo <= hi -> length vals = sel_count lo hi (length dset) ->
  length (firstn (sel_lo lo (length dset)) dset ++ vals ++
          skipn (sel_lo lo (length dset) + sel_count lo hi (length dset)) dset) = length dset /\
  rows_written lo hi dset
    (firstn (sel_lo lo (length dset)) dset ++ vals ++
     skipn (sel_lo lo (length dset) + sel_count lo hi (length dset)) dset) vals.
Proof.
  intros A lo hi dset vals Hlh Hd. unfold sel_lo, sel_count in *.
  set (n := length dset) in *. set (lo' := Nat.min lo n) in *.
  set (m := Nat.max lo' (Nat.min hi n) - lo') in *.
  assert (Hm : lo' + m <= n) by (subst m lo'; lia).
  assert (Hf : length (firstn lo' dset) = lo') by (rewrite length_firstn; fold n; lia).
  split.
  - rewrite !length_app, Hf, Hd, length_skipn. fold n. lia.
  - intros r. split.
    + intros Hr.
      destruct (Nat.ltb_spec r lo') as [Hr'|Hr'].
      * rewrite nth_error_app1 by lia. rewrite nth_error_firstn.
        destruct (Nat.ltb_spec r lo'); [reflexivity | lia].
      * assert (lo' + m <= r) by (subst m lo'; lia).
        rewrite nth_error_app2 by lia. rewrite Hf.
        rewrite nth_error_app2 by lia. rewrite Hd, nth_error_skipn. f_equal. lia.
    + intros [Hr1 Hr2] Hrn. fold n in Hrn.
      rewrite nth_error_app2 by (subst lo'; lia). rewrite Hf.
      rewrite nth_error_app1 by (rewrite Hd; subst m lo'; lia).
      f_equal. subst lo'. lia.
Qed.

Lemma rows_written_ext : forall {A} lo hi (old new vals vals' : list A),
  rows_written lo hi old new vals ->
  (forall r, lo <= r < hi -> r < length old -> nth_error vals (r - lo) = nth_error vals' (r - lo)) ->
  rows_written lo hi old new vals'.
Proof.
  intros A lo hi old new vals vals' H He r. destruct (H r) as [H1 H2].
  split; [exact H1|]. intros Hr Hrn. rewrite H2 by assumption. apply He; assumption.
Qed.

Lemma rows_written_same : forall {A} lo hi (old vals : list A),
  sel_count lo hi (length old) = 0 -> rows_written lo hi old old vals.
Proof.
  intros A lo hi old vals Hm r. unfold sel_count in Hm.
  split; [reflexivity|]. intros Hr Hrn. lia.
Qed.

(** A one-dimensional write keeps the dataset's length and writes exactly
    the existing rows of [[lo, hi)], with the value or its one entry. *)
Lemma h5_assign_1d_rows : forall {A} lo hi (data dset new : list A),
  lo <= hi -> h5_assign_1d lo hi data dset = inl new ->
  length new = length dset /\ rows_written lo hi dset new (bcast_1d (hi - lo) data).
Proof.
  intros A lo hi data dset new Hlh H. unfold h5_assign_1d in H.
  destruct (Nat.eqb_spec (sel_count lo hi (length dset)) 0) as [Hm|Hm].
  - injection H as <-. split; [reflexivity|]. apply rows_written_same. exact Hm.
  - assert (Hin : forall r, lo <= r < hi -> r < length dset ->
                    r - lo < sel_count lo hi (length dset) /\ r - lo < hi - lo).
    { intros r Hr Hrn. unfold sel_count. lia. }
    destruct (Nat.eqb_spec (length data) (sel_count lo hi (length dset))) as [Hd|Hd].
    + injection H as <-. destruct (splice_rows lo hi dset data Hlh Hd) as [Hl Hr].
      split; [exact Hl|]. eapply rows_written_ext; [exact Hr|].
      intros r Hr' Hrn. destruct (Hin r Hr' Hrn) as [H1 H2].
      destruct data as [|x [|y data]]; try reflexivity.
      cbn [List.length] in Hd. cbn [bcast_1d]. rewrite nth_error_repeat by lia.
      replace (r - lo) with 0 by lia. reflexivity.
    + destruct data as [|x [|y data]]; try discriminate.
      injection H as <-.
      destruct (splice_rows lo hi dset (repeat x (sel_count lo hi (length dset))) Hlh
                  (repeat_length _ _)) as [Hl Hr].
      split; [exact Hl|]. eapply rows_written_ext; [exact Hr|].
      intros r Hr' Hrn. destruct (Hin r Hr' Hrn) as [H1 H2].
      cbn [bcast_1d]. rewrite !nth_error_repeat by lia. reflexivity.
Qed.

Lemma length_rows_of : forall {A} rsz m (flat : list A), length (rows_of rsz m flat) = m.
Proof. intros. unfold rows_of. rewrite length_map, length_seq. reflexivity. Qed.

Lemma h5_rows_length : forall rs m src rows, h5_rows rs m src = inl rows -> length rows = m.
Proof.
  intros rs m src rows H. unfold h5_rows in H. destruct src as [a|]; [|discriminate].
  destruct (h5_expand_shape _ _); [|discriminate]. injection H as <-. apply length_rows_of.
Qed.

(** A write of rows keeps the dataset's length, leaves the rows outside
    [[lo, hi)] alone, writes nothing when the selection is empty, and
    otherwise writes the rows [h5_rows] gives to the existing rows of
    [[lo, hi)]. *)
Lemma h5_assign_rows_rows : forall rs lo hi src dset new,
  lo <= hi -> h5_assign_rows rs lo hi src dset = inl new ->
  length new = length dset /\
  (forall r, (r < lo \/ hi <= r) -> nth_error new r = nth_error dset r) /\
  (sel_count lo hi (length dset) * shape_size rs = 0 -> new = dset) /\
  (0 < sel_count lo hi (length dset) * shape_size rs ->
     exists rows, h5_rows rs (sel_count lo hi (length dset)) src = inl rows /\
                  rows_written lo hi dset new rows).
Proof.
  intros rs lo hi src dset new Hlh H. unfold h5_assign_rows in H.
  destruct (Nat.eqb_spec (sel_count lo hi (length dset) * shape_size rs) 0) as [Hz|Hz].
  - injection H as <-. split; [reflexivity|]. split; [reflexivity|].
    split; [reflexivity | lia].
  - destruct (h5_rows rs _ src) as [rows|e] eqn:Er; [|discriminate].
    injection H as <-.
    destruct (splice_rows lo hi dset rows Hlh (h5_rows_length _ _ _ _ Er)) as [Hl Hr].
    split; [exact Hl|]. split; [intros r Hr'; apply (Hr r); exact Hr'|].
    split; [lia|]. intros _. exists rows. split; [reflexivity | exact Hr].
Qed.

(** C5: [_prepare_error_log] creates the four datasets with [N] rows
    each, and [_write_error_log_batch] for the batch enumerated [i] keeps
    all four at [N] rows and writes exactly the rows
    [[i*batchSize, i*batchSize + batchSize)] of each (those that exist),
    leaving every other row unchanged. The one-dimensional datasets get
    the batch's entries, or its single entry in every row (h5py
    broadcasting); the [visualisation] rows get the stacked visuals
    broadcast to the selection. *)
Theorem error_log_layout :
  (forall T, log_wf T (prepare_error_log T)) /\
  (forall C T log data_i i fake errors log',
     let lo := i * t_batchSize T in
     let hi := i * t_batchSize T + t_batchSize T in
     log_wf T log ->
     write_error_log_batch C T log data_i i fake errors = inl log' ->
     log_wf T log' /\ el_path log' = el_path log /\
     rows_written lo hi (el_error log) (el_error log') (bcast_1d (hi - lo) errors) /\
     rows_written lo hi (el_user log) (el_user log')
       (bcast_1d (hi - lo) (map (np_bytes 4) (batch_user data_i))) /\
     rows_written lo hi (el_filename log) (el_filename log')
       (bcast_1d (hi - lo) (map (np_bytes 13) (batch_filename data_i))) /\
     (forall r, (r < lo \/ hi <= r) ->
        nth_error (el_visualisation log') r = nth_error (el_visualisation log) r) /\
     (0 < sel_count lo hi (t_N T) ->
        exists vis rows,
          vis_array C (visualize_sidebyside C data_i fake errors) = inl vis /\
          h5_rows vis_row_shape (sel_count lo hi (t_N T)) vis = inl rows /\
          rows_written lo hi (el_visualisation log) (el_visualisation log') rows)).
Proof.
  split.
  - intros T. unfold log_wf, prepare_error_log. cbn [el_error el_user el_filename el_visualisation].
    rewrite !repeat_length. auto.
  - intros C T log data_i i fake errors log' lo hi (H1 & H2 & H3 & H4) H.
    assert (Hlh : lo <= hi) by (subst lo hi; lia).
    unfold write_error_log_batch in H. fold hi in H. fold lo in H.
    destruct (h5_assign_1d lo hi _ (el_user log)) as [user|] eqn:Eu; [|discriminate].
    destruct (h5_assign_1d lo hi _ (el_filename log)) as [filename|] eqn:Ef; [|discriminate].
    destruct (h5_assign_1d lo hi _ (el_error log)) as [error|] eqn:Ee; [|discriminate].
    destruct (vis_array C (visualize_sidebyside C data_i fake errors)) as [vis|] eqn:Evis;
      [|discriminate].
    destruct (h5_assign_rows vis_row_shape lo hi vis (el_visualisation log)) as [v|] eqn:Ev;
      [|discriminate].
    injection H as <-. cbn [el_error el_user el_filename el_visualisation el_path].
    destruct (h5_assign_1d_rows _ _ _ _ _ Hlh Eu) as [Lu Ru].
    destruct (h5_assign_1d_rows _ _ _ _ _ Hlh Ef) as [Lf Rf].
    destruct (h5_assign_1d_rows _ _ _ _ _ Hlh Ee) as [Le Re].
    destruct (h5_assign_rows_rows _ _ _ _ _ _ Hlh Ev) as (Lv & Ov & _ & Wv).
    unfold log_wf; cbn [el_error el_user el_filename el_visualisation].
    split; [split; [|split; [|split]]|].
    { rewrite Le; exact H1. } { rewrite Lu; exact H2. } { rewrite Lf; exact H3. }
    { etransitivity; [exact Lv | exact H4]. }
    split; [reflexivity|]. split; [exact Re|]. split; [exact Ru|]. split; [exact Rf|].
    split; [exact Ov|].
    intros Hpos. rewrite <- H4 in Hpos.
    assert (Hs : 0 < shape_size vis_row_shape)
      by (unfold shape_size, vis_row_shape; cbn [fold_right];
          repeat apply Nat.mul_pos_pos; lia).
    destruct Wv as (rows & Hr & Hw); [apply Nat.mul_pos_pos; assumption|].
    exists vis, rows. rewrite <- H4. split; [reflexivity|]. split; [exact Hr | exact Hw].
Qed.

Lemma error_log_layout_witness :
  match write_error_log_batch C0 T0 L6 (firstn 1 ds0) 0
          (model_forward C0 (firstn 1 ds0)) [0%Q] with
  | inl l => rows_written 0 3 (el_user L6) (el_user l)
               (bcast_1d (3 - 0) (map (np_bytes 4) (batch_user (firstn 1 ds0))))
  | inr _ => False
  end.
Proof.
  assert (Hwf : log_wf T0 L6) by (repeat split).
  assert (Hok : match write_error_log_batch C0 T0 L6 (firstn 1 ds0) 0
                        (model_forward C0 (firstn 1 ds0)) [0%Q] with
                | inl _ => true
                | inr _ => false
                end = true) by (vm_compute; reflexivity).
  destruct (write_error_log_batch C0 T0 L6 (firstn 1 ds0) 0
              (model_forward C0 (firstn 1 ds0)) [0%Q]) as [l|e] eqn:Hw;
    [|discriminate Hok].
  destruct (proj2 error_log_layout C0 T0 L6 (firstn 1 ds0) 0
              (model_forward C0 (firstn 1 ds0)) [0%Q] l Hwf Hw)
    as (_ & _ & _ & Hu & _).
  exact Hu.
Defined.

(* ------------------------------------------------------------------ *)
(** ** Further properties of the runner *)

Example rvv_T0 :
  run_visual_validation C0 T0 "fix" 2 =
  inl {| vi_batches := [[smp "p.png" "u"]; [smp "p.png" "u"]];
         vi_label := [[]; []]; vi_target_original := [[]; []];
         vi_fake := [[1%Z; 2%Z]; [1%Z; 2%Z]]; vi_errors := ErrFlat [0%Q; 0%Q] |}.
Proof. reflexivity. Qed.

Lemma samples_concat : forall bs, samples bs = length (concat bs).
Proof.
  induction bs as [|b bs IH]; [reflexivity|].
  rewrite samples_cons. simpl. rewrite length_app, IH. reflexivity.
Qed.

Lemma samples_firstn_le : forall m bs, samples (firstn m bs) <= samples bs.
Proof.
  induction m as [|m IH]; intros bs; [unfold samples; simpl; lia|].
  destruct bs as [|b bs]; [reflexivity|].
  simpl firstn. rewrite !samples_cons. specialize (IH bs). lia.
Qed.

Lemma prepare_error_log_wf : forall T, log_wf T (prepare_error_log T).
Proof.
  intros T. unfold log_wf, prepare_error_log.
  cbn [el_error el_user el_filename el_visualisation]. rewrite !repeat_length. auto.
Qed.

Lemma write_error_log_batch_wf : forall C T log data_i i fake errors log',
  log_wf T log -> write_error_log_batch C T log data_i i fake errors = inl log' ->
  log_wf T log' /\ el_path log' = el_path log.
Proof.
  intros C T log data_i i fake errors log' (He & Hu & Hf & Hv) H.
  assert (Hlh : i * t_batchSize T <= i * t_batchSize T + t_batchSize T) by lia.
  unfold write_error_log_batch in H.
  destruct (h5_assign_1d _ _ _ (el_user log)) as [user|] eqn:E1; [|discriminate].
  destruct (h5_assign_1d _ _ _ (el_filename log)) as [filename|] eqn:E2; [|discriminate].
  destruct (h5_assign_1d _ _ _ (el_error log)) as [error|] eqn:E3; [|discriminate].
  destruct (vis_array C _) as [vis|]; [|discriminate].
  destruct (h5_assign_rows _ _ _ vis (el_visualisation log)) as [visualisation|] eqn:E4;
    [|discriminate].
  injection H as <-.
  destruct (h5_assign_1d_rows _ _ _ _ _ Hlh E1) as [L1 _].
  destruct (h5_assign_1d_rows _ _ _ _ _ Hlh E2) as [L2 _].
  destruct (h5_assign_1d_rows _ _ _ _ _ Hlh E3) as [L3 _].
  destruct (h5_assign_rows_rows _ _ _ _ _ _ Hlh E4) as [L4 _].
  unfold log_wf; cbn [el_error el_user el_filename el_visualisation el_path].
  repeat split; [etransitivity; [exact L3 | exact He] | etransitivity; [exact L1 | exact Hu]
                | etransitivity; [exact L2 | exact Hf] | etransitivity; [exact L4 | exact Hv]].
Qed.

Lemma logged_batches_S : forall B i k,
  logged_batches B i (S k) = EvBatch i :: EvLogWrite i (i * B) (i * B + B) :: logged_batches B (S i) k.
Proof. reflexivity. Qed.

(** The loop with the error log on: the batches it runs each write their
    rows, the log stays well formed, and an exception stops it right
    after the [run_batch] of the failing batch. *)
Lemma run_validation_loop_logged :
  forall C T gen i counter limit el acc evs r,
    log_wf T el ->
    run_validation_loop C T gen i counter limit (Some el) acc = (evs, r) ->
    exists k,
      (exists acc' el', r = inl (acc', Some el') /\ log_wf T el' /\ el_path el' = el_path el /\
         evs = logged_batches (t_batchSize T) i k) \/
      (exists e, r = inr e /\ log_exc e /\
         evs = logged_batches (t_batchSize T) i k ++ [EvBatch (i + k)]).
Proof.
  intros C T gen; induction gen as [|b gen IH];
    intros i counter limit el acc evs r Hwf H;
    cbn -[run_batch write_error_log_batch] in H.
  - injection H as <- <-. exists 0. left. exists acc, el. auto.
  - destruct (Z.ltb limit (Z.of_nat (counter + label_shape0 b))).
    + injection H as <- <-. exists 0. left. exists acc, el. auto.
    + destruct (run_batch C b) as [[[errors fake] fr] tg].
      destruct (write_error_log_batch C T el b i fake errors) as [el1|e] eqn:Ew.
      * destruct (write_error_log_batch_wf _ _ _ _ _ _ _ _ Hwf Ew) as [Hwf1 Hp1].
        destruct (run_validation_loop C T gen (S i) (counter + label_shape0 b) limit
                    (Some el1) (acc ++ errors)) as [evs' r'] eqn:El.
        injection H as <- <-.
        destruct (IH _ _ _ _ _ _ _ Hwf1 El)
          as (k & [(acc' & el' & Hr & Hw & Hp & He)|(e & Hr & Hx & He)]);
          exists (S k); [left | right].
        -- exists acc', el'. rewrite logged_batches_S, He, Hp1 in *. auto.
        -- exists e. rewrite logged_batches_S, He. split; [exact Hr|]. split; [exact Hx|].
           replace (i + S k) with (S i + k) by lia. reflexivity.
      * injection H as <- <-. apply write_error_log_batch_exc in Ew.
        exists 0. right. exists e. rewrite Nat.add_0_r. auto.
Qed.

(** The loop with the error log off only runs batches. *)
Lemma run_validation_loop_unlogged :
  forall C T gen i counter limit acc evs r,
    run_validation_loop C T gen i counter limit None acc = (evs, r) ->
    exists k acc', evs = map EvBatch (seq i k) /\ r = inl (acc', None).
Proof.
  intros C T gen; induction gen as [|b gen IH];
    intros i counter limit acc evs r H;
    cbn -[run_batch write_error_log_batch] in H.
  - injection H as <- <-. exists 0, acc. auto.
  - destruct (Z.ltb limit (Z.of_nat (counter + label_shape0 b))).
    + injection H as <- <-. exists 0, acc. auto.
    + destruct (run_batch C b) as [[[errors fake] fr] tg].
      destruct (run_validation_loop C T gen (S i) (counter + label_shape0 b) limit
                  None (acc ++ errors)) as [evs' r'] eqn:El.
      injection H as <- <-.
      destruct (IH _ _ _ _ _ _ El) as (k & acc' & He & Hr).
      exists (S k), acc'. rewrite He. auto.
Qed.

Lemma run_validation_batches_only :
  forall C T gen limit evs r,
    run_validation C T gen limit false = (evs, r) ->
    forall ev, In ev evs -> exists j, ev = EvBatch j.
Proof.
  intros C T gen limit evs r H. unfold run_validation in H.
  destruct (negb (t_is_validation T)).
  - injection H as <- _. intros ev [].
  - destruct (run_validation_loop C T gen 0 0 limit None []) as [evs' r'] eqn:El.
    destruct (run_validation_loop_unlogged _ _ _ _ _ _ _ _ _ El) as (k & acc' & He & Hr).
    subst r'. injection H as <- _. rewrite app_nil_r, He.
    intros ev Hin. apply in_map_iff in Hin as (j & <- & _). exists j. reflexivity.
Qed.

(** Extra: without [write_error_log], [run_validation] only runs batches:
    no error log is created, written or closed, whatever the outcome. *)
Theorem run_validation_no_log_events :
  forall C T gen limit evs r,
    run_validation C T gen limit false = (evs, r) ->
    forall ev, In ev evs -> exists j, ev = EvBatch j.
Proof. exact run_validation_batches_only. Qed.

(** Extra: a successful [run_validation] with [write_error_log] opens the
    log at [<results_dir>/error_log_<dataset_key>.h5] first, then for each
    batch [i] it calls [run_batch] and then writes rows
    [[i*batchSize, i*batchSize+batchSize)], and closes the log last; the
    closed log still has [N] rows in each dataset. *)
Theorem run_validation_log_sequence :
  forall C T gen limit evs errs,
    run_validation C T gen limit true = (evs, inl errs) ->
    exists k el,
      evs = EvLogOpen (el_path (prepare_error_log T)) ::
              logged_batches (t_batchSize T) 0 k ++ [EvLogClose el] /\
      el_path el = el_path (prepare_error_log T) /\ log_wf T el.
Proof.
  intros C T gen limit evs errs H. unfold run_validation in H.
  destruct (negb (t_is_validation T)); [discriminate|].
  destruct (run_validation_loop C T gen 0 0 limit (Some (prepare_error_log T)) [])
    as [evs' r] eqn:El.
  destruct (run_validation_loop_logged _ _ _ _ _ _ _ _ _ _ (prepare_error_log_wf T) El)
    as (k & [(acc' & el' & Hr & Hw & Hp & He)|(e & Hr & _ & He)]); subst r; [|discriminate].
  injection H as <- _. exists k, el'. rewrite He. auto.
Qed.

(** Extra: when writing a batch into the error log raises (a [TypeError]
    from h5py for data it cannot broadcast to the selected rows, or a
    [ValueError] from NumPy for visuals it cannot stack),
    [run_validation] stops right after that batch's [run_batch] and the
    log, opened first, is never closed. *)
Theorem run_validation_log_left_open :
  forall C T gen limit evs e,
    t_is_validation T = true ->
    run_validation C T gen limit true = (evs, inr e) ->
    log_exc e /\
    (exists k, evs = EvLogOpen (el_path (prepare_error_log T)) ::
                       logged_batches (t_batchSize T) 0 k ++ [EvBatch k]) /\
    (forall el, ~ In (EvLogClose el) evs).
Proof.
  intros C T gen limit evs e Hv H. unfold run_validation in H. rewrite Hv in H.
  cbn [negb] in H.
  destruct (run_validation_loop C T gen 0 0 limit (Some (prepare_error_log T)) [])
    as [evs' r] eqn:El.
  destruct (run_validation_loop_logged _ _ _ _ _ _ _ _ _ _ (prepare_error_log_wf T) El)
    as (k & [(acc' & el' & Hr & Hw & Hp & He)|(e' & Hr & Hx & He)]); subst r; [discriminate|].
  injection H as <- <-. split; [exact Hx|]. split; [exists k; rewrite He; reflexivity|].
  intros el Hin. rewrite He in Hin. simpl in Hin.
  destruct Hin as [Hin|Hin]; [discriminate|].
  apply in_app_or in Hin as [Hin|[Hin|[]]]; [|discriminate].
  unfold logged_batches in Hin. apply in_flat_map in Hin as (j & _ & [Hj|[Hj|[]]]);
    discriminate.
Qed.

Lemma run_validation_no_log_events_witness :
  exists j, hd (EvLogOpen "") (fst (run_validation C0 T0 (dataloader T0) 10 false)) = EvBatch j.
Proof.
  apply (run_validation_no_log_events C0 T0 (dataloader T0) 10
           (fst (run_validation C0 T0 (dataloader T0) 10 false))
           (snd (run_validation C0 T0 (dataloader T0) 10 false))).
  - vm_compute. reflexivity.
  - vm_compute. left. reflexivity.
Defined.

Lemma run_validation_log_sequence_witness :
  exists k el,
    fst (run_validation C0 T0 (dataloader T0) 10 true) =
      EvLogOpen (el_path (prepare_error_log T0)) ::
        logged_batches (t_batchSize T0) 0 k ++ [EvLogClose el] /\
    el_path el = el_path (prepare_error_log T0) /\ log_wf T0 el.
Proof.
  assert (Hs : snd (run_validation C0 T0 (dataloader T0) 10 true) =
                 inl [0%Q; 0%Q; 0%Q; 0%Q; 0%Q; 0%Q]) by (vm_compute; reflexivity).
  apply (run_validation_log_sequence C0 T0 (dataloader T0) 10
           (fst (run_validation C0 T0 (dataloader T0) 10 true)) [0%Q; 0%Q; 0%Q; 0%Q; 0%Q; 0%Q]).
  rewrite <- Hs. apply surjective_pairing.
Defined.

Lemma run_validation_log_left_open_witness :
  snd (run_validation C0 T0 [ds0] 10 true) = inr TypeError /\
  forall el, ~ In (EvLogClose el) (fst (run_validation C0 T0 [ds0] 10 true)).
Proof.
  destruct (run_validation_log_left_open C0 T0 [ds0] 10 (fst (run_validation C0 T0 [ds0] 10 true))
              TypeError eq_refl)
    as (He & _ & Hn); [vm_compute; reflexivity|].
  split; [vm_compute; reflexivity | exact Hn].
Defined.

(** Extra: [run] in a "full" mode whose limit does not restrict it
    ([limit <= 0], the default, or [limit >= N]) runs every batch of the
    dataloader, in order, and returns the errors of all of them. *)
Theorem run_full_runs_every_batch :
  forall C T mode limit write_error_log evs errs,
    py_in "rand" mode = false -> py_in "fix" mode = false -> py_in "full" mode = true ->
    0 < t_batchSize T -> t_N T = length (t_dataset T) ->
    ((limit <= 0)%Z \/ (Z.of_nat (t_N T) <= limit)%Z) ->
    run C T mode limit write_error_log = (evs, inl errs) ->
    batch_events evs = seq 0 (length (dataloader T)) /\
    errs = concat (map (batch_errors C) (dataloader T)).
Proof.
  intros C T mode limit w evs errs Hr Hf Hu HB HN Hl H.
  unfold run, get_validation_indices_sel in H. rewrite Hr, Hf, Hu in H.
  cbn [get_iterator] in H.
  assert (Hs : samples (dataloader T) = t_N T).
  { rewrite samples_concat, HN. unfold dataloader. rewrite concat_chunk; auto. }
  assert (Hlim : (Z.of_nat (t_N T) <= resolve_limit T limit)%Z).
  { unfold resolve_limit. destruct (Z.ltb_spec 0 limit); lia. }
  destruct (run_validation_prefix _ _ _ _ _ _ _ H) as (k & Hk & Hev & _ & Hm & Ha).
  destruct Hm as [Hm|Hm].
  - subst k. rewrite firstn_all in Ha. split; assumption.
  - exfalso. pose proof (samples_firstn_le (S k) (dataloader T)). lia.
Qed.

Lemma run_full_runs_every_batch_witness :
  batch_events (fst (run C0 T0 "full" 0 false)) = seq 0 (length (dataloader T0)) /\
  [0%Q; 0%Q; 0%Q; 0%Q; 0%Q; 0%Q] = concat (map (batch_errors C0) (dataloader T0)).
Proof.
  apply (run_full_runs_every_batch C0 T0 "full" 0 false (fst (run C0 T0 "full" 0 false)));
    try reflexivity; try (vm_compute; reflexivity); cbn; lia.
Defined.

Lemma save_outputs_events : forall dir names outs evs ps e,
  save_outputs dir names outs = (evs, ps, e) ->
  (forall ev, In ev evs -> exists p a, ev = EvSave p a) /\
  (forall x, e = Some x -> test_exc x).
Proof.
  intros dir names; induction names as [|f names IH]; intros outs evs ps e H.
  - injection H as <- <- <-. split; [intros ev []|discriminate].
  - simpl in H. destruct outs as [|o outs].
    + injection H as <- <- <-. split; [intros ev []|]. intros x [= <-]. left. reflexivity.
    + destruct (assert_range o) as [x|] eqn:Ea.
      * injection H as <- <- <-. split; [intros ev []|]. intros y [= <-].
        unfold assert_range in Ea. destruct o; [injection Ea as <-; right; right; reflexivity|].
        destruct (in_range_255 _); [discriminate|]. injection Ea as <-. right; left; reflexivity.
      * destruct (save_outputs dir names outs) as [[evs' ps'] e'] eqn:Es.
        injection H as <- <- <-. destruct (IH _ _ _ _ Es) as [Hs He].
        split; [|exact He]. intros ev [<-|Hin]; [do 2 eexists; reflexivity | apply Hs; exact Hin].
Qed.

Lemma run_test_loop_events : forall C T bs i limit evs ps e,
  run_test_loop C T bs i limit = (evs, ps, e) ->
  (forall ev, In ev evs -> exists p a, ev = EvSave p a) /\
  (forall x, e = Some x -> test_exc x).
Proof.
  intros C T bs; induction bs as [|b bs IH]; intros i limit evs ps e H.
  - injection H as <- <- <-. split; [intros ev []|discriminate].
  - cbn -[forward save_outputs] in H.
    destruct ((0 <? limit)%Z && (limit <=? Z.of_nat (i * t_batchSize T))%Z).
    + injection H as <- <- <-. split; [intros ev []|discriminate].
    + destruct (forward C b) as [fake fr].
      destruct (save_outputs (t_results_dir T) (map re_sub_dot (batch_filename b)) fr)
        as [[evs1 ps1] e1] eqn:Es.
      destruct (save_outputs_events _ _ _ _ _ _ Es) as [Hs1 He1].
      destruct e1 as [x|].
      * injection H as <- <- <-. split; [exact Hs1 | exact He1].
      * destruct (run_test_loop C T bs (S i) limit) as [[evs2 ps2] e2] eqn:El.
        injection H as <- <- <-. destruct (IH _ _ _ _ _ El) as [Hs2 He2].
        split; [|exact He2]. intros ev Hin. apply in_app_or in Hin as [Hin|Hin];
          [apply Hs1 | apply Hs2]; exact Hin.
Qed.

(** Extra: when [run_test] finishes, its last action writes
    [<results_dir>/pred_npy_list.txt], whose text lists, one per line and
    in order, exactly the paths of the arrays saved before it; every
    earlier action is an [np.save]. *)
Theorem run_test_manifest_last :
  forall C T limit evs,
    run_test C T limit = (evs, None) ->
    exists evs',
      evs = evs' ++ [EvWriteText (path_join (t_results_dir T) "pred_npy_list.txt")
                       (manifest (save_paths evs'))] /\
      forall ev, In ev evs' -> exists p a, ev = EvSave p a.
Proof.
  intros C T limit evs H. unfold run_test in H.
  destruct (run_test_loop C T (dataloader T) 0 limit) as [[evs' ps] e] eqn:El.
  destruct (run_test_loop_events _ _ _ _ _ _ _ _ El) as [Hs _].
  destruct (run_test_loop_prefix _ _ _ _ _ _ _ _ El) as [Hp _].
  destruct e as [x|]; [discriminate|]. injection H as <-.
  exists evs'. rewrite Hp. split; [reflexivity | exact Hs].
Qed.

(** Extra: when [run_test] raises (an [IndexError] for a missing output,
    an [AssertionError] for an out-of-range one, a [RuntimeError] for an
    empty one), the arrays saved before stay on disk but no manifest is
    written: every action taken is an [np.save]. *)
Theorem run_test_no_manifest_on_error :
  forall C T limit evs x,
    run_test C T limit = (evs, Some x) ->
    test_exc x /\ forall ev, In ev evs -> exists p a, ev = EvSave p a.
Proof.
  intros C T limit evs x H. unfold run_test in H.
  destruct (run_test_loop C T (dataloader T) 0 limit) as [[evs' ps] e] eqn:El.
  destruct (run_test_loop_events _ _ _ _ _ _ _ _ El) as [Hs He].
  destruct e as [y|]; [|discriminate]. injection H as <- <-.
  split; [apply He; reflexivity | exact Hs].
Qed.

Lemma run_test_manifest_last_witness :
  exists evs',
    fst (run_test C0 T0 (-1)) =
      evs' ++ [EvWriteText (path_join (t_results_dir T0) "pred_npy_list.txt")
                 (manifest (save_paths evs'))] /\
    forall ev, In ev evs' -> exists p a, ev = EvSave p a.
Proof.
  apply (run_test_manifest_last C0 T0 (-1)). vm_compute. reflexivity.
Defined.

Lemma run_test_no_manifest_on_error_witness :
  test_exc AssertionError /\
  forall ev, In ev (fst (run_test C_bright T0 (-1))) -> exists p a, ev = EvSave p a.
Proof.
  apply (run_test_no_manifest_on_error C_bright T0 (-1)). vm_compute. reflexivity.
Defined.

Lemma firstn_add : forall {A} n m (l : list A),
  firstn (n + m) l = firstn n l ++ firstn m (skipn n l).
Proof.
  intros A n; induction n as [|n IH]; intros m l; [reflexivity|].
  destruct l as [|x l]; simpl; [rewrite firstn_nil; reflexivity | rewrite IH; reflexivity].
Qed.

Lemma concat_firstn_chunk : forall fuel B m l,
  0 < B -> length l <= fuel -> concat (firstn m (chunk fuel B l)) = firstn (m * B) l.
Proof.
  induction fuel as [|fuel IH]; intros B m l HB Hl.
  - destruct l; [destruct m; simpl; rewrite ?firstn_nil; reflexivity | simpl in Hl; lia].
  - destruct m as [|m]; [reflexivity|].
    destruct l as [|x l']; [simpl; rewrite firstn_nil; reflexivity|].
    change (firstn (S m) (chunk (S fuel) B (x :: l')))
      with (firstn B (x :: l') :: firstn m (chunk fuel B (skipn B (x :: l')))).
    cbn [List.concat]. rewrite IH; [|exact HB|rewrite length_skipn; cbn [List.length] in *; lia].
    replace (S m * B) with (B + m * B) by lia. symmetry. apply firstn_add.
Qed.

(** The [run_test] loop stops at the first batch whose index [i] has
    [i * batchSize >= limit]: it behaves as the loop over the batches
    before it. *)
Lemma run_test_loop_cut : forall C T limit m bs i,
  (forall j, j < m ->
     ((0 <? limit)%Z && (limit <=? Z.of_nat ((i + j) * t_batchSize T))%Z) = false) ->
  ((0 <? limit)%Z && (limit <=? Z.of_nat ((i + m) * t_batchSize T))%Z) = true ->
  run_test_loop C T bs i limit = run_test_loop C T (firstn m bs) i limit.
Proof.
  intros C T limit m; induction m as [|m IH]; intros bs i Hno Hbr.
  - destruct bs as [|b bs]; [reflexivity|]. rewrite Nat.add_0_r in Hbr.
    cbn -[forward save_outputs]. rewrite Hbr. reflexivity.
  - destruct bs as [|b bs]; [reflexivity|].
    change (firstn (S m) (b :: bs)) with (b :: firstn m bs).
    cbn -[forward save_outputs].
    assert (H0 := Hno 0 ltac:(lia)). rewrite Nat.add_0_r in H0. rewrite H0.
    rewrite (IH bs (S i)); [reflexivity| |].
    + intros j Hj. replace (S i + j) with (i + S j) by lia. apply Hno. lia.
    + replace (S i + m) with (i + S m) by lia. exact Hbr.
Qed.

(** Extra: with a positive [limit], [run_test] stops before the first
    batch [c] with [c * batchSize >= limit], but runs every earlier batch
    in full: given one in-range output per sample, it saves the first
    [c * batchSize] samples (all of them when there are fewer), which can
    be more than [limit], then writes the manifest of those paths. *)
Theorem run_test_positive_limit :
  forall C opt key dataset limit c,
    let T := tester_init opt key dataset in
    let B := opt_batchSize opt in
    0 < B -> (0 < limit)%Z ->
    (Z.of_nat ((c - 1) * B) < limit <= Z.of_nat (c * B))%Z ->
    (forall b, In b (dataloader T) -> output_ok C b) ->
    exists arrs, length arrs = length (firstn (c * B) dataset) /\
      run_test C T limit =
        (saves (map (sample_path T) (firstn (c * B) dataset)) arrs ++
         [EvWriteText (path_join (t_results_dir T) "pred_npy_list.txt")
            (manifest (map (sample_path T) (firstn (c * B) dataset)))], None).
Proof.
  intros C opt key ds limit c T B HB Hl [Hc1 Hc2] Hok.
  assert (Hc : 0 < c) by (destruct c; [simpl in Hc2; lia | lia]).
  assert (Hdl : forall m, concat (firstn m (dataloader T)) = firstn (m * B) ds).
  { intros m. apply concat_firstn_chunk; [exact HB | reflexivity]. }
  assert (Hok' : forall b, In b (firstn c (dataloader T)) -> output_ok C b).
  { intros b Hb. apply Hok. eapply In_firstn_in; exact Hb. }
  unfold run_test.
  rewrite (run_test_loop_cut C T limit c (dataloader T) 0).
  2:{ intros j Hj. apply andb_false_iff. right. apply Z.leb_gt. cbn [t_batchSize T tester_init].
      fold B. assert (j * B <= (c - 1) * B) by (apply Nat.mul_le_mono_r; lia). lia. }
  2:{ apply andb_true_iff. split; [apply Z.ltb_lt; exact Hl | apply Z.leb_le].
      cbn [t_batchSize T tester_init]. fold B. exact Hc2. }
  rewrite run_test_loop_all.
  - exists (concat (map (batch_arrays C) (firstn c (dataloader T)))).
    assert (Hp : concat (map (batch_paths T) (firstn c (dataloader T))) =
                 map (sample_path T) (firstn (c * B) ds)).
    { pose proof (concat_map (sample_path T) (firstn c (dataloader T))) as E.
      rewrite Hdl in E. symmetry. exact E. }
    rewrite Hp. split; [|reflexivity].
    rewrite length_batch_arrays_concat by exact Hok'. rewrite Hdl. reflexivity.
  - intros j b Hj. rewrite nth_error_firstn in Hj.
    destruct (Nat.ltb_spec j c); [|discriminate]. cbn [t_batchSize T tester_init].
    fold B. assert (j * B <= (c - 1) * B) by (apply Nat.mul_le_mono_r; lia).
    simpl Nat.add. lia.
  - exact Hok'.
Qed.

Lemma run_test_positive_limit_witness :
  exists arrs, length arrs = length (firstn (1 * 3) ds0) /\
    run_test C0 T0 2 =
      (saves (map (sample_path T0) (firstn (1 * 3) ds0)) arrs ++
       [EvWriteText (path_join (t_results_dir T0) "pred_npy_list.txt")
          (manifest (map (sample_path T0) (firstn (1 * 3) ds0)))], None).
Proof.
  apply (run_test_positive_limit C0
           {| opt_name := "run"; opt_checkpoints_dir := "ckpt";
              opt_results_dir := None; opt_batchSize := 3 |} "validation" ds0 2 1).
  - cbn. lia.
  - lia.
  - cbn. lia.
  - intros b Hb. vm_compute in Hb.
    destruct Hb as [<-|[<-|[]]]; split; [reflexivity| |reflexivity|];
      intros o Ho; vm_compute in Ho; repeat destruct Ho as [<-|Ho]; try reflexivity;
      destruct Ho.
Defined.

Lemma np_stack_flatten_same_length : forall k rows,
  (forall r, In r rows -> length r = k) -> np_stack_flatten rows = inl (ErrFlat (concat rows)).
Proof.
  intros k [|r rs] H; [reflexivity|]. unfold np_stack_flatten, np_stack.
  cbn [map nd_shape].
  replace (forallb _ (map _ rs)) with true.
  - cbn [nd_data]. f_equal. f_equal. f_equal.
    rewrite map_map. cbn [nd_data]. rewrite map_id. reflexivity.
  - symmetry. apply forallb_forall. intros w Hw. apply in_map_iff in Hw as (r' & <- & Hr').
    cbn [nd_shape shape_eqb]. rewrite (H r' (or_intror Hr')), (H r (or_introl eq_refl)).
    rewrite Nat.eqb_refl. reflexivity.
Qed.

(** Extra: [run_visual_validation] in a "fix" mode (without "rand") with
    [limit = 0] selects no index, so [result_list] is empty and reading
    [result_list[0]] raises [IndexError] before anything is visualised. *)
Theorem visual_validation_fix_zero :
  forall C T mode,
    py_in "rand" mode = false -> py_in "fix" mode = true ->
    run_visual_validation C T mode 0 = inr IndexError.
Proof.
  intros C T mode Hr Hf. unfold run_visual_validation, get_validation_indices_sel.
  rewrite Hr, Hf. reflexivity.
Qed.

(** Extra: when the selected batches are not empty and their error arrays
    have one common length, [run_visual_validation] visualises the
    selected batches, in order, with their labels, original targets and
    model outputs concatenated along the batch axis and their errors
    flattened into one list. *)
Theorem visual_validation_concatenates :
  forall C T mode limit indices k,
    get_validation_indices_sel C mode limit = inl indices ->
    get_iterator C T indices <> [] ->
    (forall b, In b (get_iterator C T indices) -> length (batch_errors C b) = k) ->
    run_visual_validation C T mode limit =
      inl {| vi_batches := get_iterator C T indices;
             vi_label := map s_label (concat (get_iterator C T indices));
             vi_target_original := map s_target_original (concat (get_iterator C T indices));
             vi_fake := concat (map (fun b => fst (forward C b)) (get_iterator C T indices));
             vi_errors := ErrFlat (concat (map (batch_errors C) (get_iterator C T indices))) |}.
Proof.
  intros C T mode limit indices k Hsel Hne Hk. unfold run_visual_validation. rewrite Hsel.
  set (gen := get_iterator C T indices) in *.
  set (f := fun data_i : Batch =>
              let '(errors, fake, _, _) := run_batch C data_i in (data_i, fake, errors)).
  assert (Hf : forall b, f b = (b, fst (forward C b), batch_errors C b)).
  { intros b. subst f. unfold batch_errors, run_batch.
    destruct (forward C b) as [fake fr]. reflexivity. }
  assert (Hsnd : map snd (map f gen) = map (batch_errors C) gen).
  { rewrite map_map. apply map_ext. intros b. rewrite Hf. reflexivity. }
  rewrite Hsnd, (np_stack_flatten_same_length k).
  2:{ intros r Hr. apply in_map_iff in Hr as (b & <- & Hb). apply Hk. exact Hb. }
  clearbody f gen. destruct gen as [|b0 gen']; [contradiction|].
  remember (map f (b0 :: gen')) as l eqn:El.
  destruct l as [|x xs]; [discriminate El|]. rewrite El.
  rewrite (map_ext f (fun b => (b, fst (forward C b), batch_errors C b)) Hf).
  rewrite !map_map, !concat_map. reflexivity.
Qed.

(** Extra: [run_partial_modes] does one [run] in mode "rand" without the
    error log: it never creates an error log nor saves any file (every
    action is a [run_batch]), and when asked to visualise (and the run
    succeeded) it visualises the batches of 4 random indices. *)
Theorem partial_modes_rand_only :
  forall C T visualize_images limit evs r v,
    run_partial_modes C T visualize_images limit = (evs, r, v) ->
    (evs, r) = run C T "rand" limit false /\
    (forall ev, In ev evs -> exists j, ev = EvBatch j) /\
    (v = if visualize_images then
           match r with inl _ => Some (run_visual_validation C T "rand" 4) | inr _ => None end
         else None) /\
    get_validation_indices_sel C "rand" 4 = inl (Some (get_random_indices C 4)).
Proof.
  intros C T vi limit evs r v H. unfold run_partial_modes in H.
  destruct (run C T "rand" limit false) as [evs' r'] eqn:Er.
  assert (Hev : forall ev, In ev evs' -> exists j, ev = EvBatch j).
  { unfold run in Er. destruct (get_validation_indices_sel C "rand" (resolve_limit T limit));
      [|injection Er as <- _; intros ev []].
    eapply run_validation_batches_only; exact Er. }
  destruct r' as [errs|e]; injection H as <- <- <-;
    (split; [reflexivity|]); (split; [exact Hev|]); (split; [destruct vi; reflexivity|]);
    reflexivity.
Qed.

Lemma visual_validation_fix_zero_witness :
  run_visual_validation C0 T0 "fix" 0 = inr IndexError.
Proof. apply (visual_validation_fix_zero C0 T0 "fix"); reflexivity. Defined.

Lemma visual_validation_concatenates_witness :
  run_visual_validation C0 T0 "fix" 2 =
    inl {| vi_batches := get_iterator C0 T0 (Some [5%Z; 6%Z]);
           vi_label := map s_label (concat (get_iterator C0 T0 (Some [5%Z; 6%Z])));
           vi_target_original :=
             map s_target_original (concat (get_iterator C0 T0 (Some [5%Z; 6%Z])));
           vi_fake := concat (map (fun b => fst (forward C0 b)) (get_iterator C0 T0 (Some [5%Z; 6%Z])));
           vi_errors :=
             ErrFlat (concat (map (batch_errors C0) (get_iterator C0 T0 (Some [5%Z; 6%Z])))) |}.
Proof.
  apply (visual_validation_concatenates C0 T0 "fix" 2 (Some [5%Z; 6%Z]) 1).
  - reflexivity.
  - discriminate.
  - intros b Hb. vm_compute in Hb. destruct Hb as [<-|[<-|[]]]; reflexivity.
Defined.

Lemma partial_modes_rand_only_witness :
  exists j, hd (EvLogOpen "") (fst (fst (run_partial_modes C0 T0 true 2))) = EvBatch j.
Proof.
  refine (proj1 (proj2 (partial_modes_rand_only C0 T0 true 2
            (fst (fst (run_partial_modes C0 T0 true 2)))
            (snd (fst (run_partial_modes C0 T0 true 2)))
            (snd (run_partial_modes C0 T0 true 2)) _)) _ _).
  - vm_compute. reflexivity.
  - vm_compute. left. reflexivity.
Defined.
